(** * Customer risk and recommendation engine ([backend/ml_models.py])

    A shallow embedding of the three scoring classes of the dashboard
    back end, [ChurnPredictor], [HealthScorer] and
    [InterventionRecommender], and of the risk tier computed by the
    [/api/predict-churn] route of [backend/app.py].

    Modelling choices.
    - A customer record is the Python [dict] the code receives: a finite
      map from string keys to dynamically typed values, [gmap string value].
    - A Python number (int, float or bool) is an exact rational [Q]: IEEE
      rounding, overflow, infinities and NaN are outside the model, and an
      int is not told from a float of the same value.  The comparisons of
      a field with the integer bounds of the code are exact in Python as
      they are here; the arithmetic of the health score and of the
      engagement level rounds in the source, so what is stated of their
      results is stated as bounds and orderings that the rounding keeps,
      on fields of a magnitude no conversion to a float overflows on
      ([bounded_fields]).  The other values modelled under a key are
      strings and [None], on which the arithmetic and the comparisons of
      the code raise [TypeError].
    - Exceptions are explicit: every operation that can raise returns a
      [res], and the operators below raise [TypeError] exactly where
      Python's do.
    - Strings are byte strings; [lower] changes the ASCII letters only.
    - The rule-based estimator is embedded a second time with its
      accumulator the binary64 float it is in the source
      ([_rule_based_churn_prediction_binary64] on the dict,
      [rule_based_binary64] on numeric fields): what it returns is stated
      of the floats, and the exact sums are compared with them.
    - The routes of [backend/app.py] that combine the components are
      embedded on the dict of a request body or of a row of the customers
      file; Flask, pandas and the builtin [round] are outside the
      repository, the latter a parameter of the routes. *)

From Stdlib Require Import QArith Qround Qminmax String Ascii Lia Lqa.
From Stdlib Require Import PrimFloat.
From stdpp Require Import gmap strings list fin_maps.

Local Open Scope string_scope.
Local Open Scope list_scope.
Local Open Scope stdpp_scope.

(** ** Values, exceptions and the error monad *)

Inductive value : Type :=
| VNum (q : Q)
| VStr (s : string)
| VNone.

Inductive exn : Type :=
| TypeError
| KeyError
| ZeroDivisionError
| ModelError (msg : string).

Inductive res (A : Type) : Type :=
| Ok (a : A)
| Raise (e : exn).

Arguments Ok {A} a.
Arguments Raise {A} e.

#[global] Instance res_ret : MRet res := λ A a, Ok a.
#[global] Instance res_bind : MBind res := λ A B f m,
  match m with
  | Ok a => f a
  | Raise e => Raise e
  end.

(** [try: body / except Exception: handler]. *)
Definition try_except {A} (body : res A) (handler : exn → res A) : res A :=
  match body with
  | Ok a => Ok a
  | Raise e => handler e
  end.

Definition raises {A} (m : res A) : Prop := ∃ e, m = Raise e.

(** ** Python operators on values *)

Definition Qlt_bool (x y : Q) : bool := negb (Qle_bool y x).

(** [a < b] *)
Definition py_lt (a b : value) : res bool :=
  match a, b with
  | VNum x, VNum y => Ok (Qlt_bool x y)
  | VStr s, VStr t => Ok (String.ltb s t)
  | _, _ => Raise TypeError
  end.

(** [a <= b] *)
Definition py_le (a b : value) : res bool :=
  match a, b with
  | VNum x, VNum y => Ok (Qle_bool x y)
  | VStr s, VStr t => Ok (String.leb s t)
  | _, _ => Raise TypeError
  end.

(** [a > b] *)
Definition py_gt (a b : value) : res bool := py_lt b a.

(** [a == b]: never raises; values of different types are unequal. *)
Definition py_eq (a b : value) : bool :=
  match a, b with
  | VNum x, VNum y => Qeq_bool x y
  | VStr s, VStr t => String.eqb s t
  | VNone, VNone => true
  | _, _ => false
  end.

(** [a + b] *)
Definition py_add (a b : value) : res value :=
  match a, b with
  | VNum x, VNum y => Ok (VNum (x + y))
  | VStr s, VStr t => Ok (VStr (s +:+ t))
  | _, _ => Raise TypeError
  end.

Fixpoint str_repeat (n : nat) (s : string) : string :=
  match n with
  | O => ""
  | S n' => s +:+ str_repeat n' s
  end.

Definition is_integral (q : Q) : bool := Qeq_bool q (inject_Z (Qfloor q)).

(** [a * b]: a product of numbers, or a string repeated an integral number
    of times (no repetition for a count below one). *)
Definition py_mul (a b : value) : res value :=
  match a, b with
  | VNum x, VNum y => Ok (VNum (x * y))
  | VStr s, VNum n | VNum n, VStr s =>
      if is_integral n then Ok (VStr (str_repeat (Z.to_nat (Qfloor n)) s))
      else Raise TypeError
  | _, _ => Raise TypeError
  end.

(** [a / b] *)
Definition py_div (a b : value) : res value :=
  match a, b with
  | VNum x, VNum y =>
      if Qeq_bool y 0 then Raise ZeroDivisionError else Ok (VNum (x / y))
  | _, _ => Raise TypeError
  end.

(** [min(a, b)] keeps [a] unless [b < a]; [max(a, b)] keeps [a] unless
    [b > a]. *)
Definition py_min (a b : value) : res value :=
  c ← py_lt b a; mret (if c : bool then b else a).

Definition py_max (a b : value) : res value :=
  c ← py_gt b a; mret (if c : bool then b else a).

(** Dictionaries: [d.get(k, dflt)], [k in d] and [d[k]]. *)
Definition get (d : gmap string value) (k : string) (dflt : value) : value :=
  default dflt (d !! k).

Definition contains_key {V} (d : gmap string V) (k : string) : bool :=
  bool_decide (is_Some (d !! k)).

Definition getitem {V} (d : gmap string V) (k : string) : res V :=
  match d !! k with
  | Some v => Ok v
  | None => Raise KeyError
  end.

(** ** ChurnPredictor *)

Definition feature_columns : list string :=
  ["tenure_months"; "monthly_revenue"; "total_interactions";
   "support_tickets"; "last_login_days"; "feature_usage_score"].

(** The dict branch of [prepare_features]: the six features in the fixed
    column order, each defaulting to 0. *)
Definition prepare_features (customer_data : gmap string value) : list value :=
  [get customer_data "tenure_months" (VNum 0);
   get customer_data "monthly_revenue" (VNum 0);
   get customer_data "total_interactions" (VNum 0);
   get customer_data "support_tickets" (VNum 0);
   get customer_data "last_login_days" (VNum 0);
   get customer_data "feature_usage_score" (VNum 0)].

(** [risk_score] is a local float: the increments are plain additions. *)
Definition _rule_based_churn_prediction (customer_data : gmap string value)
  : res Q :=
  let risk_score := 0.0%Q in
  let tenure := get customer_data "tenure_months" (VNum 0) in
  c1 ← py_lt tenure (VNum 3);
  risk_score ←
    (if c1 : bool then mret (risk_score + 0.3)%Q
     else c2 ← py_lt tenure (VNum 12);
          mret (if c2 : bool then (risk_score + 0.1)%Q else risk_score));
  let revenue := get customer_data "monthly_revenue" (VNum 0) in
  c1 ← py_lt revenue (VNum 50);
  risk_score ←
    (if c1 : bool then mret (risk_score + 0.2)%Q
     else c2 ← py_lt revenue (VNum 100);
          mret (if c2 : bool then (risk_score + 0.1)%Q else risk_score));
  let interactions := get customer_data "total_interactions" (VNum 0) in
  c1 ← py_lt interactions (VNum 5);
  let risk_score := if c1 : bool then (risk_score + 0.2)%Q else risk_score in
  let last_login := get customer_data "last_login_days" (VNum 0) in
  c1 ← py_gt last_login (VNum 30);
  risk_score ←
    (if c1 : bool then mret (risk_score + 0.3)%Q
     else c2 ← py_gt last_login (VNum 7);
          mret (if c2 : bool then (risk_score + 0.1)%Q else risk_score));
  mret (if Qlt_bool 1.0 risk_score then 1.0%Q else risk_score).

(** The trained artifact is the scikit-learn scaler and classifier, which
    are not part of the repository: [scaler.transform] followed by
    [predict_proba(...)[0][1]] is an arbitrary function of the feature
    row that either raises or returns a float. *)
Definition artifact : Type := list value → res Q.

Definition predict_churn (model : option artifact)
    (customer_data : gmap string value) : res Q :=
  try_except
    (match model with
     | Some inference =>
         let features_df := prepare_features customer_data in
         churn_prob ← inference features_df;
         mret churn_prob
     | None => _rule_based_churn_prediction customer_data
     end)
    (λ e, _rule_based_churn_prediction customer_data).

(** The tier computed by the [/api/predict-churn] route. *)
Definition risk_level (churn_prob : Q) : string :=
  if Qlt_bool 0.7 churn_prob then "High"
  else if Qlt_bool 0.4 churn_prob then "Medium"
  else "Low".

(** ** HealthScorer *)

Definition weights : gmap string value :=
  <["engagement" := VNum 0.3]> (<["usage" := VNum 0.25]>
  (<["satisfaction" := VNum 0.2]> (<["financial" := VNum 0.15]>
  (<["support" := VNum 0.1]> ∅)))).

Definition _calculate_engagement_score (customer_data : gmap string value)
  : res value :=
  let interactions := get customer_data "total_interactions" (VNum 0) in
  let last_login_days := get customer_data "last_login_days" (VNum 30) in
  doubled ← py_mul interactions (VNum 2);
  interaction_score ← py_min doubled (VNum 50);
  c1 ← py_le last_login_days (VNum 1);
  login_score ←
    (if c1 : bool then mret (VNum 50)
     else c2 ← py_le last_login_days (VNum 7);
          if c2 : bool then mret (VNum 40)
          else c3 ← py_le last_login_days (VNum 30);
               mret (if c3 : bool then VNum 20 else VNum 0));
  py_add interaction_score login_score.

Definition _calculate_usage_score (customer_data : gmap string value)
  : res value :=
  let feature_usage := get customer_data "feature_usage_score" (VNum 0) in
  scaled ← py_mul feature_usage (VNum 20);
  py_min scaled (VNum 100).

Definition _calculate_satisfaction_score (customer_data : gmap string value)
  : res value :=
  let support_tickets := get customer_data "support_tickets" (VNum 0) in
  if py_eq support_tickets (VNum 0) then mret (VNum 100)
  else c1 ← py_le support_tickets (VNum 2);
       if c1 : bool then mret (VNum 80)
       else c2 ← py_le support_tickets (VNum 5);
            mret (if c2 : bool then VNum 60 else VNum 40).

Definition _calculate_financial_score (customer_data : gmap string value)
  : res value :=
  let revenue := get customer_data "monthly_revenue" (VNum 0) in
  let tenure := get customer_data "tenure_months" (VNum 1) in
  tenth ← py_div revenue (VNum 10);
  revenue_score ← py_min tenth (VNum 70);
  doubled ← py_mul tenure (VNum 2);
  tenure_bonus ← py_min doubled (VNum 30);
  py_add revenue_score tenure_bonus.

Definition _calculate_support_score (customer_data : gmap string value)
  : res value :=
  let support_tickets := get customer_data "support_tickets" (VNum 0) in
  if py_eq support_tickets (VNum 0) then mret (VNum 100)
  else c1 ← py_le support_tickets (VNum 1);
       if c1 : bool then mret (VNum 90)
       else c2 ← py_le support_tickets (VNum 3);
            if c2 : bool then mret (VNum 70)
            else c3 ← py_le support_tickets (VNum 5);
                 mret (if c3 : bool then VNum 50 else VNum 30).

(** [sum(scores[key] * self.weights[key] for key in scores.keys())]:
    [scores] is the dict in insertion order, the running total starts at
    the int 0. *)
Fixpoint weighted_sum (total : value) (scores : list (string * value))
  : res value :=
  match scores with
  | [] => mret total
  | (key, score) :: rest =>
      weight ← getitem weights key;
      term ← py_mul score weight;
      total ← py_add total term;
      weighted_sum total rest
  end.

Definition calculate_health_score (customer_data : gmap string value)
  : res value :=
  engagement ← _calculate_engagement_score customer_data;
  usage ← _calculate_usage_score customer_data;
  satisfaction ← _calculate_satisfaction_score customer_data;
  financial ← _calculate_financial_score customer_data;
  support ← _calculate_support_score customer_data;
  let scores :=
    [("engagement", engagement); ("usage", usage);
     ("satisfaction", satisfaction); ("financial", financial);
     ("support", support)] in
  health_score ← weighted_sum (VNum 0) scores;
  lower_clamped ← py_max health_score (VNum 0);
  py_min lower_clamped (VNum 100).

Definition get_health_status (health_score : Q) : string :=
  if Qle_bool 90 health_score then "Excellent"
  else if Qle_bool 70 health_score then "Good"
  else if Qle_bool 50 health_score then "Fair"
  else "Poor".

(** ** InterventionRecommender *)

Definition intervention_strategies : gmap string (list string) :=
  <["high_churn_low_engagement" :=
      (["Schedule personal check-in call";
       "Offer product training session";
       "Provide dedicated customer success manager";
       "Send personalized onboarding materials"])]>
  (<["high_churn_low_usage" :=
      (["Offer feature demo session";
       "Provide use case examples";
       "Schedule product walkthrough";
       "Send tutorial videos"])]>
  (<["high_churn_support_issues" :=
      (["Priority support queue assignment";
       "Technical expert consultation";
       "Product feedback session";
       "Escalate to development team"])]>
  (<["low_revenue" :=
      (["Discuss upgrade opportunities";
       "Show ROI calculations";
       "Offer limited-time discount";
       "Highlight premium features"])]>
  (<["engagement_drop" :=
      (["Send re-engagement email campaign";
       "Offer new feature preview";
       "Schedule product update call";
       "Provide industry insights"])]> ∅)))).

(** [str.lower()] on byte strings: the letters A-Z move to a-z. *)
Definition lower_ascii (c : ascii) : ascii :=
  let n := nat_of_ascii c in
  if (65 <=? n)%nat && (n <=? 90)%nat then ascii_of_nat (n + 32) else c.

Fixpoint lower (s : string) : string :=
  match s with
  | EmptyString => EmptyString
  | String c s' => String (lower_ascii c) (lower s')
  end.

(** [sub in s]: [sub] occurs in [s] as a contiguous substring. *)
Fixpoint py_in (sub s : string) : bool :=
  String.prefix sub s ||
  match s with
  | EmptyString => false
  | String _ s' => py_in sub s'
  end.

Definition _categorize_recommendation (recommendation : string) : string :=
  if py_in "call" (lower recommendation)
     || py_in "personal" (lower recommendation)
  then "Personal Outreach"
  else if py_in "training" (lower recommendation)
          || py_in "demo" (lower recommendation)
  then "Product Education"
  else if py_in "support" (lower recommendation)
          || py_in "technical" (lower recommendation)
  then "Support Enhancement"
  else if py_in "discount" (lower recommendation)
          || py_in "upgrade" (lower recommendation)
  then "Commercial"
  else "Engagement".

Definition _get_engagement_level (customer_data : gmap string value)
  : res value :=
  let interactions := get customer_data "total_interactions" (VNum 0) in
  let last_login := get customer_data "last_login_days" (VNum 30) in
  engagement_score ← py_mul interactions (VNum 10);
  c1 ← py_le last_login (VNum 7);
  if c1 : bool then py_add engagement_score (VNum 20)
  else c2 ← py_le last_login (VNum 30);
       if c2 : bool then py_add engagement_score (VNum 10)
       else mret engagement_score.

(** One entry of the returned list: the dict with the keys [action],
    [priority] and [category]. *)
Record recommendation : Type := Recommendation {
  action : string;
  priority : string;
  category : string
}.

(** [list(dict.fromkeys(l))]: the keys of a dict filled from [l], in
    insertion order; inserting a key that is present leaves its place. *)
Definition insert_key (keys : list string) (k : string) : list string :=
  if bool_decide (k ∈ keys) then keys else keys ++ [k].

Definition fromkeys (l : list string) : list string :=
  foldl insert_key [] l.

(** The opening lines of [get_recommendations]: the risk that selects the
    tier. *)
Definition selected_churn_risk (customer_data : gmap string value)
  : res value :=
  let churn_risk := get customer_data "churn_risk" (VNum 0) in
  if contains_key customer_data "churn_probability"
  then getitem customer_data "churn_probability"
  else mret churn_risk.

(** The lines that follow, up to the one that removes duplicates: the list
    [recommendations] as it stands there. *)
Definition candidate_actions (customer_data : gmap string value)
  : res (list string) :=
  let recommendations : list string := [] in
  churn_risk ← selected_churn_risk customer_data;
  let health_score := get customer_data "health_score" (VNum 100) in
  high ← py_gt churn_risk (VNum 0.7);
  recommendations ←
    (if high : bool then
       engagement_score ← _get_engagement_level customer_data;
       let usage_score := get customer_data "feature_usage_score" (VNum 0) in
       let support_tickets := get customer_data "support_tickets" (VNum 0) in
       c ← py_lt engagement_score (VNum 50);
       recommendations ←
         (if c : bool then
            pool ← getitem intervention_strategies "high_churn_low_engagement";
            mret (recommendations ++ take 2 pool)
          else mret recommendations);
       c ← py_lt usage_score (VNum 3);
       recommendations ←
         (if c : bool then
            pool ← getitem intervention_strategies "high_churn_low_usage";
            mret (recommendations ++ take 2 pool)
          else mret recommendations);
       c ← py_gt support_tickets (VNum 3);
       if c : bool then
         pool ← getitem intervention_strategies "high_churn_support_issues";
         mret (recommendations ++ take 1 pool)
       else mret recommendations
     else
       medium ← py_gt churn_risk (VNum 0.4);
       if medium : bool then
         let last_login := get customer_data "last_login_days" (VNum 0) in
         c ← py_gt last_login (VNum 14);
         if c : bool then
           pool ← getitem intervention_strategies "engagement_drop";
           mret (recommendations ++ take 2 pool)
         else mret recommendations
       else mret recommendations);
  let revenue := get customer_data "monthly_revenue" (VNum 0) in
  c ← py_lt revenue (VNum 100);
  if c : bool then
    pool ← getitem intervention_strategies "low_revenue";
    mret (recommendations ++ take 1 pool)
  else mret recommendations.

(** The loop over [enumerate(recommendations)]. *)
Definition prioritize (recommendations : list string) : list recommendation :=
  imap (λ i rec,
          {| action := rec;
             priority := if (i <? 2)%nat then "High"
                         else if (i <? 4)%nat then "Medium" else "Low";
             category := _categorize_recommendation rec |})
       recommendations.

Definition get_recommendations (customer_data : gmap string value)
  : res (list recommendation) :=
  recommendations ← candidate_actions customer_data;
  let recommendations := take 5 (fromkeys recommendations) in
  mret (prioritize recommendations).

(** ** The request bodies of [tests/test_system.py] *)

Definition profile (tenure revenue interactions tickets login usage : Q)
  : gmap string value :=
  <["tenure_months" := VNum tenure]> (<["monthly_revenue" := VNum revenue]>
  (<["total_interactions" := VNum interactions]>
  (<["support_tickets" := VNum tickets]>
  (<["last_login_days" := VNum login]>
  (<["feature_usage_score" := VNum usage]> ∅))))).

Definition test_high_risk : gmap string value := profile 3 45 8 6 21 1.2.
Definition test_healthy : gmap string value := profile 24 350 85 1 1 4.8.
Definition test_health : gmap string value := profile 12 200 45 2 3 3.8.
Definition test_recommendations : gmap string value :=
  <["churn_probability" := VNum 0.65]> (profile 6 75 15 4 14 2.1).

(** ** The estimator in binary64 arithmetic *)

#[local] Set Warnings "-inexact-float".

(** [_rule_based_churn_prediction] on numeric fields, with [risk_score]
    the binary64 float it is in the source: the literals 0.3, 0.2 and 0.1
    are the nearest floats and every [+=] rounds.  The fields are compared
    with the integer bounds by their exact values, as Python compares
    numbers. *)
Definition rule_based_binary64 (tenure revenue interactions last_login : Q)
  : float :=
  let risk_score := 0.0%float in
  let risk_score :=
    if Qlt_bool tenure 3 then (risk_score + 0.3)%float
    else if Qlt_bool tenure 12 then (risk_score + 0.1)%float
    else risk_score in
  let risk_score :=
    if Qlt_bool revenue 50 then (risk_score + 0.2)%float
    else if Qlt_bool revenue 100 then (risk_score + 0.1)%float
    else risk_score in
  let risk_score :=
    if Qlt_bool interactions 5 then (risk_score + 0.2)%float
    else risk_score in
  let risk_score :=
    if Qlt_bool 30 last_login then (risk_score + 0.3)%float
    else if Qlt_bool 7 last_login then (risk_score + 0.1)%float
    else risk_score in
  if PrimFloat.ltb 1.0 risk_score then 1.0%float else risk_score.

(** [_rule_based_churn_prediction] on the dict it receives, [risk_score]
    a binary64 float: the reads, the comparisons and what they raise are
    those of the source, every [+=] is a float addition, and
    [min(risk_score, 1.0)] keeps [risk_score] unless [1.0 < risk_score]. *)
Definition _rule_based_churn_prediction_binary64
    (customer_data : gmap string value) : res float :=
  let risk_score := 0.0%float in
  let tenure := get customer_data "tenure_months" (VNum 0) in
  c1 ← py_lt tenure (VNum 3);
  risk_score ←
    (if c1 : bool then mret (risk_score + 0.3)%float
     else c2 ← py_lt tenure (VNum 12);
          mret (if c2 : bool then (risk_score + 0.1)%float else risk_score));
  let revenue := get customer_data "monthly_revenue" (VNum 0) in
  c1 ← py_lt revenue (VNum 50);
  risk_score ←
    (if c1 : bool then mret (risk_score + 0.2)%float
     else c2 ← py_lt revenue (VNum 100);
          mret (if c2 : bool then (risk_score + 0.1)%float else risk_score));
  let interactions := get customer_data "total_interactions" (VNum 0) in
  c1 ← py_lt interactions (VNum 5);
  let risk_score :=
    if c1 : bool then (risk_score + 0.2)%float else risk_score in
  let last_login := get customer_data "last_login_days" (VNum 0) in
  c1 ← py_gt last_login (VNum 30);
  risk_score ←
    (if c1 : bool then mret (risk_score + 0.3)%float
     else c2 ← py_gt last_login (VNum 7);
          mret (if c2 : bool then (risk_score + 0.1)%float else risk_score));
  mret (if PrimFloat.ltb 1.0 risk_score then 1.0%float else risk_score).

(** The tier of the [/api/predict-churn] route on a float. *)
Definition risk_level_binary64 (churn_prob : float) : string :=
  if PrimFloat.ltb 0.7 churn_prob then "High"
  else if PrimFloat.ltb 0.4 churn_prob then "Medium"
  else "Low".

(** The test [churn_prob > 0.5] of the [/api/customers] route on a
    float. *)
Definition above_half_binary64 (churn_prob : float) : bool :=
  PrimFloat.ltb 0.5 churn_prob.

(** ** The routes of [backend/app.py] *)

(** [round(x, ndigits)] is the builtin of Python, not code of the
    repository: the routes take it as a parameter. *)
Definition rounding : Type := Q → Z → Q.

(** [round(v, ndigits)] on a value. *)
Definition py_round (round : rounding) (v : value) (ndigits : Z) : res value :=
  match v with
  | VNum q => Ok (VNum (round q ndigits))
  | _ => Raise TypeError
  end.

(** [get_health_status] called on a value: its comparisons raise on what
    is not a number. *)
Definition get_health_status_of (health_score : value) : res string :=
  match health_score with
  | VNum q => Ok (get_health_status q)
  | _ => Raise TypeError
  end.

(** What a route answers: [jsonify(body)], or [jsonify({'error': str(e)})]
    with status 500 from its [except Exception] clause. *)
Inductive response (A : Type) : Type :=
| Status200 (body : A)
| Status500 (error : exn).

Arguments Status200 {A} body.
Arguments Status500 {A} error.

Definition respond {A} (handler_body : res A) : response A :=
  match handler_body with
  | Ok body => Status200 body
  | Raise e => Status500 e
  end.

Record churn_body : Type := ChurnBody {
  body_churn_probability : Q;
  body_risk_level : string
}.

Record health_body : Type := HealthBody {
  body_health_score : value;
  body_health_status : string
}.

(** [POST /api/predict-churn] on the request body [customer_data]. *)
Definition api_predict_churn (round : rounding) (model : option artifact)
    (customer_data : gmap string value) : response churn_body :=
  respond
    (churn_prob ← predict_churn model customer_data;
     mret (ChurnBody (round churn_prob 3%Z) (risk_level churn_prob))).

(** [POST /api/health-score]. *)
Definition api_calculate_health (round : rounding)
    (customer_data : gmap string value) : response health_body :=
  respond
    (health_score ← calculate_health_score customer_data;
     rounded ← py_round round health_score 2%Z;
     status ← get_health_status_of health_score;
     mret (HealthBody rounded status)).

(** [POST /api/recommendations]. *)
Definition api_get_recommendations (customer_data : gmap string value)
  : response (list recommendation) :=
  respond (get_recommendations customer_data).

(** One entry of the list that [GET /api/customers] answers: the row's
    dict as the loop leaves it, and beside it the list the loop stores
    under the key [recommendations], when it stores one. *)
Record customer_entry : Type := CustomerEntry {
  entry_dict : gmap string value;
  entry_recommendations : option (list recommendation)
}.

(** The body of the loop of [get_customers] on one row. *)
Definition annotate_customer (round : rounding) (model : option artifact)
    (customer_dict : gmap string value) : res customer_entry :=
  churn_prob ← predict_churn model customer_dict;
  let customer_dict :=
    <["churn_probability" := VNum (round churn_prob 3%Z)]> customer_dict in
  health_score ← calculate_health_score customer_dict;
  rounded ← py_round round health_score 2%Z;
  let customer_dict := <["health_score" := rounded]> customer_dict in
  if Qlt_bool 0.5 churn_prob then
    recommendations ← get_recommendations customer_dict;
    mret (CustomerEntry customer_dict (Some recommendations))
  else mret (CustomerEntry customer_dict None).

Fixpoint annotate_customers (round : rounding) (model : option artifact)
    (customers : list (gmap string value)) : res (list customer_entry) :=
  match customers with
  | [] => mret []
  | customer :: rest =>
      entry ← annotate_customer round model customer;
      customers_data ← annotate_customers round model rest;
      mret (entry :: customers_data)
  end.

(** [GET /api/customers] on the rows of the customers file (none when the
    file could not be loaded). *)
Definition get_customers (round : rounding) (model : option artifact)
    (customers : list (gmap string value))
  : response (list customer_entry) :=
  respond
    (match customers with
     | [] => mret []
     | _ => annotate_customers round model customers
     end).

Record customer_predictions : Type := CustomerPredictions {
  detail_churn_probability : Q;
  detail_health_score : value;
  detail_recommendations : list recommendation
}.

(** The predictions [GET /api/customer/<id>] computes on the row it found
    and puts in its answer. *)
Definition get_customer_predictions (round : rounding)
    (model : option artifact) (customer_data : gmap string value)
  : res customer_predictions :=
  churn_prob ← predict_churn model customer_data;
  health_score ← calculate_health_score customer_data;
  recommendations ← get_recommendations customer_data;
  rounded ← py_round round health_score 2%Z;
  mret (CustomerPredictions (round churn_prob 3%Z) rounded recommendations).

(** * Vocabulary of the properties *)

Definition is_num (v : value) : Prop := ∃ q, v = VNum q.

Definition is_number (v : value) : bool :=
  match v with VNum _ => true | _ => false end.

Definition nonneg_number (v : value) : bool :=
  match v with VNum q => Qle_bool 0 q | _ => false end.

(** The entry of [d] under [k] is absent or passes the test [P]. *)
Definition absent_or (P : value → bool) (d : gmap string value) (k : string)
  : bool :=
  match d !! k with Some v => P v | None => true end.

(** The entries of [d] under the keys [ks] are numbers wherever present. *)
Definition numeric_on (ks : list string) (d : gmap string value) : Prop :=
  forallb (absent_or is_number d) ks = true.

(** The fields the rule-based estimator reads, and the keys the
    recommender reads. *)
Definition rule_fields : list string :=
  ["tenure_months"; "monthly_revenue"; "total_interactions";
   "last_login_days"].

Definition recommender_keys : list string :=
  ["churn_risk"; "churn_probability"; "total_interactions";
   "last_login_days"; "feature_usage_score"; "support_tickets";
   "monthly_revenue"].

(** A valid profile of the specification: each of the six fields is
    absent or a non-negative number. *)
Definition valid_profile (d : gmap string value) : Prop :=
  forallb (absent_or nonneg_number d) feature_columns = true.

(** The magnitude taken for a field: at most 10^300, inside the range of
    binary64 with room for the products and sums of the health score.
    An int beyond that range makes the source raise [OverflowError] where
    it is converted to a float ([revenue / 10], an int sub-score times a
    float weight), which exact numbers do not show: the health score is
    stated on fields within the bound. *)
Definition field_bound : Q := inject_Z (10 ^ 300).

Definition bounded_number (v : value) : bool :=
  match v with
  | VNum q => Qle_bool (- field_bound) q && Qle_bool q field_bound
  | _ => true
  end.

(** Each of the six fields that holds a number holds one within the
    bound. *)
Definition bounded_fields (d : gmap string value) : Prop :=
  forallb (absent_or bounded_number d) feature_columns = true.

(** The increment of each signal, by the conditions of the source. *)
Definition tenure_increment (t : Q) : Q :=
  if Qlt_le_dec t 3 then 0.3 else if Qlt_le_dec t 12 then 0.1 else 0.

Definition revenue_increment (r : Q) : Q :=
  if Qlt_le_dec r 50 then 0.2 else if Qlt_le_dec r 100 then 0.1 else 0.

Definition interactions_increment (i : Q) : Q :=
  if Qlt_le_dec i 5 then 0.2 else 0.

Definition login_increment (l : Q) : Q :=
  if Qlt_le_dec 30 l then 0.3 else if Qlt_le_dec 7 l then 0.1 else 0.

Definition increments_sum (t r i l : Q) : Q :=
  tenure_increment t + revenue_increment r
  + interactions_increment i + login_increment l.

(** The buckets as the table of the specification words them, the ranges
    "3-11", "50-99" and "8-30" read as closed intervals. *)
Definition in_range (lo hi x : Q) : bool := Qle_bool lo x && Qle_bool x hi.

Definition tabled_sum (t r i l : Q) : Q :=
  (if Qlt_bool t 3 then 0.3 else if in_range 3 11 t then 0.1 else 0)
  + (if Qlt_bool r 50 then 0.2 else if in_range 50 99 r then 0.1 else 0)
  + (if Qlt_bool i 5 then 0.2 else 0)
  + (if Qlt_bool 30 l then 0.3 else if in_range 8 30 l then 0.1 else 0).

(** The increments a profile triggers, in the order the source adds them,
    each the float of its literal; their sum as the source accumulates
    it, from the float 0.0 and from left to right; and [min] on floats,
    which keeps its first argument unless the second is smaller. *)
Definition triggered_increments (t r i l : Q) : list float :=
  (if Qlt_le_dec t 3 then [0.3%float]
   else if Qlt_le_dec t 12 then [0.1%float] else [])
  ++ (if Qlt_le_dec r 50 then [0.2%float]
      else if Qlt_le_dec r 100 then [0.1%float] else [])
  ++ (if Qlt_le_dec i 5 then [0.2%float] else [])
  ++ (if Qlt_le_dec 30 l then [0.3%float]
      else if Qlt_le_dec 7 l then [0.1%float] else []).

Definition sum_binary64 (increments : list float) : float :=
  fold_left PrimFloat.add increments 0.0%float.

Definition min_binary64 (a b : float) : float :=
  if PrimFloat.ltb b a then b else a.

(** The list of increments by the ranges of the specification's table,
    "3-11", "50-99" and "8-30" read as closed intervals. *)
Definition tabled_increments (t r i l : Q) : list float :=
  (if Qlt_bool t 3 then [0.3%float]
   else if in_range 3 11 t then [0.1%float] else [])
  ++ (if Qlt_bool r 50 then [0.2%float]
      else if in_range 50 99 r then [0.1%float] else [])
  ++ (if Qlt_bool i 5 then [0.2%float] else [])
  ++ (if Qlt_bool 30 l then [0.3%float]
      else if in_range 8 30 l then [0.1%float] else []).

(** The classifier of a trained artifact returns probabilities. *)
Definition probabilistic (model : option artifact) : Prop :=
  ∀ inference row p,
    model = Some inference → inference row = Ok p → (0 <= p <= 1)%Q.

(** The estimate comes from the fallback: no artifact, or inference
    failed. *)
Definition falls_back (model : option artifact) (d : gmap string value)
  : Prop :=
  model = None
  ∨ ∃ inference e,
      model = Some inference ∧ inference (prepare_features d) = Raise e.

(** The value an absent field is read as by the health scorer. *)
Definition health_default (k : string) : Q :=
  if decide (k = "last_login_days") then 30
  else if decide (k = "tenure_months") then 1 else 0.

(** The tier selected for [d] is the high one. *)
Definition high_tier (d : gmap string value) : bool :=
  match selected_churn_risk d with
  | Ok (VNum p) => Qlt_bool 0.7 p
  | _ => false
  end.

(** The value an absent field is read as by the recommender. *)
Definition recommender_default (d : gmap string value) (k : string) : Q :=
  if decide (k = "last_login_days") then (if high_tier d then 30 else 0)
  else 0.

(** High before Medium before Low. *)
Definition priority_rank (p : string) : nat :=
  if String.eqb p "High" then 2
  else if String.eqb p "Medium" then 1 else 0.

(** The slice of a pool that a branch appends. *)
Definition pool_slice (n : nat) (key : string) : list string :=
  take n (default [] (intervention_strategies !! key)).

(** The actions the selection can append, in the order of the branches
    in the source. *)
Definition appendable_actions : list string :=
  pool_slice 2 "high_churn_low_engagement" ++ pool_slice 2 "high_churn_low_usage"
  ++ pool_slice 1 "high_churn_support_issues" ++ pool_slice 2 "engagement_drop"
  ++ pool_slice 1 "low_revenue".

(** The candidates by the branches taken. *)
Definition assemble (low_engagement low_usage support_issues
    engagement_drop low_revenue : bool) : list string :=
  (if low_engagement then pool_slice 2 "high_churn_low_engagement" else [])
  ++ (if low_usage then pool_slice 2 "high_churn_low_usage" else [])
  ++ (if support_issues then pool_slice 1 "high_churn_support_issues" else [])
  ++ (if engagement_drop then pool_slice 2 "engagement_drop" else [])
  ++ (if low_revenue then pool_slice 1 "low_revenue" else []).

(** What the selection comes to when no tier branch fires. *)
Definition revenue_step (d : gmap string value) : res (list string) :=
  c ← py_lt (get d "monthly_revenue" (VNum 0)) (VNum 100);
  mret (if c : bool then pool_slice 1 "low_revenue" else []).

(** [get_recommendations] with the line that removes duplicates reduced
    to the truncation [[:5]]. *)
Definition get_recommendations_without_dedup
    (customer_data : gmap string value) : res (list recommendation) :=
  recommendations ← candidate_actions customer_data;
  let recommendations := take 5 recommendations in
  mret (prioritize recommendations).





(** The four numbers the rule-based estimator reads from [d]. *)
Definition rule_inputs (d : gmap string value) (t r i l : Q) : Prop :=
  get d "tenure_months" (VNum 0) = VNum t
  ∧ get d "monthly_revenue" (VNum 0) = VNum r
  ∧ get d "total_interactions" (VNum 0) = VNum i
  ∧ get d "last_login_days" (VNum 0) = VNum l.

(** The one combination of branches on which the rounding of the float
    additions crosses a tier bound: 0.3 + 0.1 + 0.2 + 0.1. *)
Definition rounding_case (t r i l : Q) : bool :=
  Qlt_bool t 3 && negb (Qlt_bool r 50) && Qlt_bool r 100 && Qlt_bool i 5
  && negb (Qlt_bool 30 l) && Qlt_bool 7 l.

(** The six numbers the health scorer reads from [d], with its
    defaults. *)
Definition health_inputs (d : gmap string value) (i l u s r t : Q) : Prop :=
  get d "total_interactions" (VNum 0) = VNum i
  ∧ get d "last_login_days" (VNum 30) = VNum l
  ∧ get d "feature_usage_score" (VNum 0) = VNum u
  ∧ get d "support_tickets" (VNum 0) = VNum s
  ∧ get d "monthly_revenue" (VNum 0) = VNum r
  ∧ get d "tenure_months" (VNum 1) = VNum t.

(** The sub-scores on numbers. *)
Definition interaction_points (i : Q) : Q :=
  if Qlt_bool 50 (i * 2) then 50 else i * 2.

Definition login_points (l : Q) : Q :=
  if Qle_bool l 1 then 50
  else if Qle_bool l 7 then 40 else if Qle_bool l 30 then 20 else 0.

Definition engagement_q (i l : Q) : Q := interaction_points i + login_points l.

Definition usage_q (u : Q) : Q := if Qlt_bool 100 (u * 20) then 100 else u * 20.

Definition satisfaction_q (s : Q) : Q :=
  if Qeq_bool s 0 then 100
  else if Qle_bool s 2 then 80 else if Qle_bool s 5 then 60 else 40.

Definition financial_q (r t : Q) : Q :=
  (if Qlt_bool 70 (r / 10) then 70 else r / 10)
  + (if Qlt_bool 30 (t * 2) then 30 else t * 2).

Definition support_q (s : Q) : Q :=
  if Qeq_bool s 0 then 100
  else if Qle_bool s 1 then 90
  else if Qle_bool s 3 then 70 else if Qle_bool s 5 then 50 else 30.

Definition weighted_q (i l u s r t : Q) : Q :=
  0 + engagement_q i l * 0.3 + usage_q u * 0.25 + satisfaction_q s * 0.2
  + financial_q r t * 0.15 + support_q s * 0.1.

Definition clamp_q (h : Q) : Q :=
  let lower_clamped := (if Qlt_bool h 0 then 0 else h)%Q in
  (if Qlt_bool 100 lower_clamped then 100 else lower_clamped)%Q.

(** Poor below Fair below Good below Excellent. *)
Definition status_rank (label : string) : nat :=
  if String.eqb label "Excellent" then 3
  else if String.eqb label "Good" then 2
  else if String.eqb label "Fair" then 1 else 0.

(** The numbers the recommender reads from [d]: the selected risk, and
    the fields with the defaults of the places that read them (the last
    login is read with the default 30 by the engagement level and with
    the default 0 by the medium tier). *)
Definition recommender_inputs (d : gmap string value)
    (risk i l30 l0 u s r : Q) : Prop :=
  selected_churn_risk d = Ok (VNum risk)
  ∧ get d "total_interactions" (VNum 0) = VNum i
  ∧ get d "last_login_days" (VNum 30) = VNum l30
  ∧ get d "last_login_days" (VNum 0) = VNum l0
  ∧ get d "feature_usage_score" (VNum 0) = VNum u
  ∧ get d "support_tickets" (VNum 0) = VNum s
  ∧ get d "monthly_revenue" (VNum 0) = VNum r.

(** The engagement level on numbers. *)
Definition engagement_level_q (i l : Q) : Q :=
  if Qle_bool l 7 then i * 10 + 20
  else if Qle_bool l 30 then i * 10 + 10 else i * 10.

(** The branches the selection takes on numbers. *)
Definition selected_actions (risk i l30 l0 u s r : Q) : list string :=
  let high := Qlt_bool 0.7 risk in
  assemble (high && Qlt_bool (engagement_level_q i l30) 50)
    (high && Qlt_bool u 3) (high && Qlt_bool 3 s)
    (negb high && Qlt_bool 0.4 risk && Qlt_bool 14 l0)
    (Qlt_bool r 100).

(** The fields the recommender reads from [d], as numbers, with the
    defaults of the places that read them. *)
Definition recommender_fields (d : gmap string value)
    (i l30 l0 u s r : Q) : Prop :=
  get d "total_interactions" (VNum 0) = VNum i
  ∧ get d "last_login_days" (VNum 30) = VNum l30
  ∧ get d "last_login_days" (VNum 0) = VNum l0
  ∧ get d "feature_usage_score" (VNum 0) = VNum u
  ∧ get d "support_tickets" (VNum 0) = VNum s
  ∧ get d "monthly_revenue" (VNum 0) = VNum r.

(** What the returned actions show of the tier the risk [p] selects.
    Above 0.7 the branches of the high tier on the usage and on the
    support tickets are decided by the fields, whatever its branch on the
    engagement level does, and the medium branch adds nothing.  Above 0.4
    and up to 0.7 the medium branch is decided by the last login and the
    high tier adds nothing.  Up to 0.4 neither tier adds anything.  The
    revenue step follows in each case. *)
Definition actions_of_tier (p l0 u s r : Q) (actions : list string) : Prop :=
  ((0.7 < p)%Q →
     ∃ low_engagement : bool,
       actions = take 5 (assemble low_engagement (Qlt_bool u 3)
                           (Qlt_bool 3 s) false (Qlt_bool r 100)))
  ∧ ((0.4 < p)%Q → (p <= 0.7)%Q →
     actions = assemble false false false (Qlt_bool 14 l0) (Qlt_bool r 100))
  ∧ ((p <= 0.4)%Q →
     actions = assemble false false false false (Qlt_bool r 100)).

(** The five actions of the high tier with its three branches taken. *)
Definition high_tier_actions : list string :=
  pool_slice 2 "high_churn_low_engagement"
  ++ pool_slice 2 "high_churn_low_usage"
  ++ pool_slice 1 "high_churn_support_issues".

(** Rounding to [ndigits] decimals on exact rationals, a tie going to the
    even digit: an instance of the parameter of the routes. *)
Definition round_half_even (x : Q) (ndigits : Z) : Q :=
  let scale := inject_Z (10 ^ ndigits) in
  let scaled := (x * scale)%Q in
  let below := Qfloor scaled in
  let rest := (scaled - inject_Z below)%Q in
  let digits :=
    if Qlt_bool rest (1 # 2) then below
    else if Qlt_bool (1 # 2) rest then (below + 1)%Z
    else if Z.even below then below else (below + 1)%Z in
  (inject_Z digits / scale)%Q.

(** * Properties *)

(** ** Rationals and numeric fields *)

Lemma Qlt_bool_iff (x y : Q) : Qlt_bool x y = true ↔ (x < y)%Q.
Proof.
  unfold Qlt_bool. rewrite negb_true_iff, <- not_true_iff_false, Qle_bool_iff.
  split; [apply Qnot_le_lt | apply Qlt_not_le].
Qed.

Lemma Qlt_bool_reflect (x y : Q) : reflect (x < y)%Q (Qlt_bool x y).
Proof. apply iff_reflect. symmetry. apply Qlt_bool_iff. Qed.

Lemma Qle_bool_reflect (x y : Q) : reflect (x <= y)%Q (Qle_bool x y).
Proof. apply iff_reflect. symmetry. apply Qle_bool_iff. Qed.

Lemma Qeq_bool_reflect (x y : Q) : reflect (x == y)%Q (Qeq_bool x y).
Proof. apply iff_reflect. symmetry. apply Qeq_bool_iff. Qed.

Ltac case_Qlt :=
  repeat match goal with
  | |- context [Qlt_bool ?x ?y] => destruct (Qlt_bool_reflect x y)
  | |- context [Qle_bool ?x ?y] => destruct (Qle_bool_reflect x y)
  | |- context [Qlt_le_dec ?x ?y] => destruct (Qlt_le_dec x y)
  end.

Ltac res_step := cbn [mbind res_bind mret res_ret].

Lemma get_is_num ks d k q0 :
  numeric_on ks d → k ∈ ks → is_num (get d k (VNum q0)).
Proof.
  unfold numeric_on. rewrite forallb_forall. intros Hd Hk.
  apply list_elem_of_In in Hk. specialize (Hd k Hk).
  unfold absent_or, get in *. destruct (d !! k) as [[q| |]|]; simpl in *;
    try discriminate; eexists; reflexivity.
Qed.

Lemma numeric_on_weaken ks ks' d :
  ks' ⊆ ks → numeric_on ks d → numeric_on ks' d.
Proof.
  unfold numeric_on. rewrite !forallb_forall. intros Hsub Hd k Hk.
  apply Hd. apply list_elem_of_In, Hsub, list_elem_of_In, Hk.
Qed.

Lemma valid_profile_numeric d :
  valid_profile d → numeric_on feature_columns d.
Proof.
  unfold valid_profile, numeric_on. rewrite !forallb_forall.
  intros Hd k Hk. specialize (Hd k Hk). unfold absent_or in *.
  by destruct (d !! k) as [[q| |]|].
Qed.

Lemma get_insert d k v k' dflt :
  get (<[k := v]> d) k' dflt = if decide (k = k') then v else get d k' dflt.
Proof.
  unfold get. rewrite lookup_insert. by destruct (decide (k = k')).
Qed.

Lemma get_absent d k dflt : d !! k = None → get d k dflt = dflt.
Proof. intros E. unfold get. by rewrite E. Qed.

(** ** The rule-based estimator *)

Lemma rule_based_on_numbers d t r i l :
  get d "tenure_months" (VNum 0) = VNum t →
  get d "monthly_revenue" (VNum 0) = VNum r →
  get d "total_interactions" (VNum 0) = VNum i →
  get d "last_login_days" (VNum 0) = VNum l →
  ∃ p, _rule_based_churn_prediction d = Ok p
       ∧ (p == Qmin (increments_sum t r i l) 1)%Q.
Proof.
  intros Ht Hr Hi Hl. unfold _rule_based_churn_prediction.
  rewrite Ht, Hr, Hi, Hl. unfold py_gt, increments_sum, tenure_increment,
    revenue_increment, interactions_increment, login_increment. simpl.
  destruct (Qlt_bool_reflect t 3), (Qlt_le_dec t 3); try lra;
  destruct (Qlt_bool_reflect t 12), (Qlt_le_dec t 12); try lra;
  destruct (Qlt_bool_reflect r 50), (Qlt_le_dec r 50); try lra;
  destruct (Qlt_bool_reflect r 100), (Qlt_le_dec r 100); try lra;
  destruct (Qlt_bool_reflect i 5), (Qlt_le_dec i 5); try lra;
  destruct (Qlt_bool_reflect 30 l), (Qlt_le_dec 30 l); try lra;
  destruct (Qlt_bool_reflect 7 l), (Qlt_le_dec 7 l); try lra;
  simpl; eexists; (split; [reflexivity | vm_compute; reflexivity]).
Qed.

Lemma increments_sum_nonneg t r i l : (0 <= increments_sum t r i l)%Q.
Proof.
  unfold increments_sum, tenure_increment, revenue_increment,
    interactions_increment, login_increment.
  case_Qlt; vm_compute; discriminate.
Qed.

Lemma rule_based_in_unit_interval d :
  numeric_on rule_fields d →
  ∃ p, _rule_based_churn_prediction d = Ok p ∧ (0 <= p <= 1)%Q.
Proof.
  intros Hd.
  destruct (get_is_num _ d "tenure_months" 0 Hd) as [t Ht]; [set_solver|].
  destruct (get_is_num _ d "monthly_revenue" 0 Hd) as [r Hr]; [set_solver|].
  destruct (get_is_num _ d "total_interactions" 0 Hd) as [i Hi]; [set_solver|].
  destruct (get_is_num _ d "last_login_days" 0 Hd) as [l Hl]; [set_solver|].
  destruct (rule_based_on_numbers d t r i l Ht Hr Hi Hl) as (p & Hp & Heq).
  exists p. split; [exact Hp|]. rewrite Heq. split.
  - apply Q.min_glb; [apply increments_sum_nonneg | discriminate].
  - apply Q.le_min_r.
Qed.

(** On whole numbers of months, currency units and days the table's
    ranges are the conditions of the source. *)
Lemma tabled_sum_on_integers (t r i l : Z) :
  tabled_sum (inject_Z t) (inject_Z r) (inject_Z i) (inject_Z l)
  = increments_sum (inject_Z t) (inject_Z r) (inject_Z i) (inject_Z l).
Proof.
  unfold tabled_sum, increments_sum, tenure_increment, revenue_increment,
    interactions_increment, login_increment, in_range.
  assert (Hlt : ∀ a b : Z, (inject_Z a < inject_Z b)%Q ↔ (a < b)%Z)
    by (intros; by rewrite <- Zlt_Qlt).
  assert (Hle : ∀ a b : Z, (inject_Z a <= inject_Z b)%Q ↔ (a <= b)%Z)
    by (intros; by rewrite <- Zle_Qle).
  change 3%Q with (inject_Z 3). change 11%Q with (inject_Z 11).
  change 12%Q with (inject_Z 12). change 50%Q with (inject_Z 50).
  change 99%Q with (inject_Z 99). change 100%Q with (inject_Z 100).
  change 5%Q with (inject_Z 5). change 30%Q with (inject_Z 30).
  change 8%Q with (inject_Z 8). change 7%Q with (inject_Z 7).
  repeat (f_equal; [|]); case_Qlt; simpl; try reflexivity;
    repeat match goal with
    | H : _ |- _ => rewrite Hlt in H
    | H : _ |- _ => rewrite Hle in H
    end; lia.
Qed.

Lemma tabled_increments_on_integers (t r i l : Z) :
  tabled_increments (inject_Z t) (inject_Z r) (inject_Z i) (inject_Z l)
  = triggered_increments (inject_Z t) (inject_Z r) (inject_Z i) (inject_Z l).
Proof.
  unfold tabled_increments, triggered_increments, in_range.
  assert (Hlt : ∀ a b : Z, (inject_Z a < inject_Z b)%Q ↔ (a < b)%Z)
    by (intros; by rewrite <- Zlt_Qlt).
  assert (Hle : ∀ a b : Z, (inject_Z a <= inject_Z b)%Q ↔ (a <= b)%Z)
    by (intros; by rewrite <- Zle_Qle).
  change 3%Q with (inject_Z 3). change 11%Q with (inject_Z 11).
  change 12%Q with (inject_Z 12). change 50%Q with (inject_Z 50).
  change 99%Q with (inject_Z 99). change 100%Q with (inject_Z 100).
  change 5%Q with (inject_Z 5). change 30%Q with (inject_Z 30).
  change 8%Q with (inject_Z 8). change 7%Q with (inject_Z 7).
  repeat (f_equal; [|]); case_Qlt; simpl; try reflexivity;
    repeat match goal with
    | H : _ |- _ => rewrite Hlt in H
    | H : _ |- _ => rewrite Hle in H
    end; lia.
Qed.

(** On numeric fields the embedding on the dict is the float estimator
    on the four numbers. *)
Lemma rule_based_binary64_on_numbers d t r i l :
  rule_inputs d t r i l →
  _rule_based_churn_prediction_binary64 d = Ok (rule_based_binary64 t r i l).
Proof.
  intros (Ht & Hr & Hi & Hl).
  unfold _rule_based_churn_prediction_binary64, rule_based_binary64.
  rewrite Ht, Hr, Hi, Hl. unfold py_gt, py_lt. res_step.
  destruct (Qlt_bool t 3), (Qlt_bool t 12), (Qlt_bool r 50),
    (Qlt_bool r 100), (Qlt_bool i 5), (Qlt_bool 30 l), (Qlt_bool 7 l);
    reflexivity.
Qed.

(** The float estimator returns the float sum of the triggered
    increments, which the cap leaves as it is, and which lies between
    0.0 and 1.0. *)
Lemma rule_based_binary64_sum t r i l :
  let s := sum_binary64 (triggered_increments t r i l) in
  rule_based_binary64 t r i l = s
  ∧ min_binary64 s 1.0 = s
  ∧ PrimFloat.leb 0.0 s = true ∧ PrimFloat.leb s 1.0 = true.
Proof.
  unfold rule_based_binary64, triggered_increments.
  destruct (Qlt_bool_reflect t 3), (Qlt_le_dec t 3); try lra;
  destruct (Qlt_bool_reflect t 12), (Qlt_le_dec t 12); try lra;
  destruct (Qlt_bool_reflect r 50), (Qlt_le_dec r 50); try lra;
  destruct (Qlt_bool_reflect r 100), (Qlt_le_dec r 100); try lra;
  destruct (Qlt_bool_reflect i 5), (Qlt_le_dec i 5); try lra;
  destruct (Qlt_bool_reflect 30 l), (Qlt_le_dec 30 l); try lra;
  destruct (Qlt_bool_reflect 7 l), (Qlt_le_dec 7 l); try lra;
  vm_compute; repeat split; reflexivity.
Qed.

Lemma rule_inputs_of_numeric d :
  numeric_on rule_fields d → ∃ t r i l, rule_inputs d t r i l.
Proof.
  intros Hd.
  destruct (get_is_num _ d "tenure_months" 0 Hd) as [t Ht]; [set_solver|].
  destruct (get_is_num _ d "monthly_revenue" 0 Hd) as [r Hr]; [set_solver|].
  destruct (get_is_num _ d "total_interactions" 0 Hd) as [i Hi]; [set_solver|].
  destruct (get_is_num _ d "last_login_days" 0 Hd) as [l Hl]; [set_solver|].
  by exists t, r, i, l.
Qed.

(** A string or [None] under one of the four fields makes the float
    estimator raise as the exact one does. *)
Lemma rule_based_binary64_raises_on_non_number d :
  ¬ numeric_on rule_fields d →
  _rule_based_churn_prediction_binary64 d = Raise TypeError.
Proof.
  intros Hd. unfold _rule_based_churn_prediction_binary64, get, py_gt.
  destruct (d !! "tenure_months") as [[t| |]|] eqn:Et;
  destruct (d !! "monthly_revenue") as [[r| |]|] eqn:Er;
  destruct (d !! "total_interactions") as [[i| |]|] eqn:Ei;
  destruct (d !! "last_login_days") as [[l| |]|] eqn:El; simpl;
  try (exfalso; apply Hd; unfold numeric_on, rule_fields, absent_or; simpl;
       rewrite Et, Er, Ei, El; reflexivity);
  repeat match goal with
  | |- context [Qlt_bool ?x ?y] => destruct (Qlt_bool x y); simpl
  end; reflexivity.
Qed.

(** ** The health score *)

Lemma engagement_on_numbers d i l :
  get d "total_interactions" (VNum 0) = VNum i →
  get d "last_login_days" (VNum 30) = VNum l →
  ∃ q, _calculate_engagement_score d = Ok (VNum q).
Proof.
  intros Hi Hl. unfold _calculate_engagement_score, py_min.
  rewrite Hi, Hl. simpl.
  case_Qlt; simpl; case_Qlt; simpl; eexists; reflexivity.
Qed.

Lemma usage_on_numbers d u :
  get d "feature_usage_score" (VNum 0) = VNum u →
  ∃ q, _calculate_usage_score d = Ok (VNum q).
Proof.
  intros Hu. unfold _calculate_usage_score, py_min. rewrite Hu. simpl.
  case_Qlt; eexists; reflexivity.
Qed.

Lemma satisfaction_on_numbers d s :
  get d "support_tickets" (VNum 0) = VNum s →
  ∃ q, _calculate_satisfaction_score d = Ok (VNum q).
Proof.
  intros Hs. unfold _calculate_satisfaction_score. rewrite Hs. simpl.
  destruct (Qeq_bool s 0); simpl; case_Qlt; simpl; eexists; reflexivity.
Qed.

Lemma financial_on_numbers d r t :
  get d "monthly_revenue" (VNum 0) = VNum r →
  get d "tenure_months" (VNum 1) = VNum t →
  ∃ q, _calculate_financial_score d = Ok (VNum q).
Proof.
  intros Hr Ht. unfold _calculate_financial_score, py_min.
  rewrite Hr, Ht. simpl.
  case_Qlt; simpl; case_Qlt; simpl; eexists; reflexivity.
Qed.

Lemma support_on_numbers d s :
  get d "support_tickets" (VNum 0) = VNum s →
  ∃ q, _calculate_support_score d = Ok (VNum q).
Proof.
  intros Hs. unfold _calculate_support_score. rewrite Hs. simpl.
  destruct (Qeq_bool s 0); simpl; case_Qlt; simpl; eexists; reflexivity.
Qed.

Lemma weighted_sum_on_numbers e u s f p :
  weighted_sum (VNum 0)
    [("engagement", VNum e); ("usage", VNum u); ("satisfaction", VNum s);
     ("financial", VNum f); ("support", VNum p)]
  = Ok (VNum (0 + e * 0.3 + u * 0.25 + s * 0.2 + f * 0.15 + p * 0.1)).
Proof. reflexivity. Qed.

(** [min(max(h, 0), 100)] on a number. *)
Lemma clamp_on_numbers h :
  ∃ c, (lower_clamped ← py_max (VNum h) (VNum 0);
        py_min lower_clamped (VNum 100)) = Ok (VNum c)
       ∧ (0 <= c <= 100)%Q.
Proof.
  unfold py_max, py_min, py_gt. simpl.
  destruct (Qlt_bool_reflect h 0); simpl.
  - exists 0%Q. split; [reflexivity | split; discriminate].
  - destruct (Qlt_bool_reflect 100 h); simpl; eexists;
      (split; [reflexivity|]); split; try discriminate; lra.
Qed.

Lemma health_score_in_range d :
  numeric_on feature_columns d →
  ∃ h, calculate_health_score d = Ok (VNum h) ∧ (0 <= h <= 100)%Q.
Proof.
  intros Hd.
  destruct (get_is_num _ d "total_interactions" 0 Hd) as [i Hi]; [set_solver|].
  destruct (get_is_num _ d "last_login_days" 30 Hd) as [l Hl]; [set_solver|].
  destruct (get_is_num _ d "feature_usage_score" 0 Hd) as [u Hu]; [set_solver|].
  destruct (get_is_num _ d "support_tickets" 0 Hd) as [s Hs]; [set_solver|].
  destruct (get_is_num _ d "monthly_revenue" 0 Hd) as [r Hr]; [set_solver|].
  destruct (get_is_num _ d "tenure_months" 1 Hd) as [t Ht]; [set_solver|].
  destruct (engagement_on_numbers d i l Hi Hl) as [qe He].
  destruct (usage_on_numbers d u Hu) as [qu Hqu].
  destruct (satisfaction_on_numbers d s Hs) as [qs Hqs].
  destruct (financial_on_numbers d r t Hr Ht) as [qf Hqf].
  destruct (support_on_numbers d s Hs) as [qp Hqp].
  unfold calculate_health_score. rewrite He, Hqu, Hqs, Hqf, Hqp.
  cbn [mbind res_bind]. rewrite weighted_sum_on_numbers. cbn [mbind res_bind].
  apply clamp_on_numbers.
Qed.

(** ** Claims on the estimator and the scorer *)

(** C1: on every profile whose four fields are numbers (an absent field
    reads as 0) the rule-based estimator returns min(s, 1.0), where s is
    the sum, as the floats of the source add it, of the increments
    triggered: 0.3 for a tenure below 3, else 0.1 for a tenure below 12;
    0.2 for a revenue below 50, else 0.1 for a revenue below 100; 0.2 for
    fewer than 5 interactions; 0.3 for a last login over 30 days, else 0.1
    for one over 7 days; one increment per signal at most.  On whole
    numbers these conditions are the ranges 3-11, 50-99 and 8-30 of the
    table. *)
Theorem rule_based_capped_sum d t r i l :
  rule_inputs d t r i l →
  _rule_based_churn_prediction_binary64 d
  = Ok (min_binary64 (sum_binary64 (triggered_increments t r i l)) 1.0)
  ∧ (length (triggered_increments t r i l) ≤ 4)%nat
  ∧ (∀ tz rz iz lz : Z,
       tabled_increments (inject_Z tz) (inject_Z rz) (inject_Z iz)
         (inject_Z lz)
       = triggered_increments (inject_Z tz) (inject_Z rz) (inject_Z iz)
           (inject_Z lz)).
Proof.
  intros Hd. split; [|split].
  - rewrite (rule_based_binary64_on_numbers d t r i l Hd).
    destruct (rule_based_binary64_sum t r i l) as (-> & -> & _).
    reflexivity.
  - unfold triggered_increments. case_Qlt; simpl; lia.
  - apply tabled_increments_on_integers.
Qed.

Lemma rule_based_capped_sum_witness :
  _rule_based_churn_prediction_binary64 (profile 2 75 3 9 21 1)
  = Ok (min_binary64 (sum_binary64 (triggered_increments 2 75 3 21)) 1.0)
  ∧ (length (triggered_increments 2 75 3 21) ≤ 4)%nat
  ∧ (∀ tz rz iz lz : Z,
       tabled_increments (inject_Z tz) (inject_Z rz) (inject_Z iz)
         (inject_Z lz)
       = triggered_increments (inject_Z tz) (inject_Z rz) (inject_Z iz)
           (inject_Z lz)).
Proof.
  apply (rule_based_capped_sum (profile 2 75 3 9 21 1) 2 75 3 21).
  repeat split; reflexivity.
Defined.

(** C2: for every valid profile, whatever the artifact (none, or one whose
    classifier returns probabilities and may fail), the churn probability
    is returned and lies in [0, 1], the rule-based one as the floats
    compute it included; whatever the health scorer returns is a number in
    [0, 100]; and it does return one where the fields are within the
    magnitude that converts to a float. *)
Theorem outputs_in_range model d :
  valid_profile d →
  probabilistic model →
  (∃ p, predict_churn model d = Ok p ∧ (0 <= p <= 1)%Q)
  ∧ (∃ f, _rule_based_churn_prediction_binary64 d = Ok f
          ∧ PrimFloat.leb 0.0 f = true ∧ PrimFloat.leb f 1.0 = true)
  ∧ (∀ v, calculate_health_score d = Ok v →
       ∃ h, v = VNum h ∧ (0 <= h <= 100)%Q)
  ∧ (bounded_fields d →
     ∃ h, calculate_health_score d = Ok (VNum h) ∧ (0 <= h <= 100)%Q).
Proof.
  intros Hd Hm. apply valid_profile_numeric in Hd.
  destruct (health_score_in_range d Hd) as (h & Hh & Hhr).
  assert (Hrule : numeric_on rule_fields d).
  { apply (numeric_on_weaken feature_columns); [|exact Hd].
    unfold rule_fields, feature_columns. intros k.
    rewrite !elem_of_cons, elem_of_nil. tauto. }
  destruct (rule_based_in_unit_interval d Hrule) as (q & Hq & Hqr).
  split; [|split; [|split]].
  - unfold predict_churn. destruct model as [inference|]; simpl.
    + destruct (inference (prepare_features d)) as [p|e] eqn:E; simpl.
      * exists p. split; [done|]. by apply (Hm inference (prepare_features d)).
      * by exists q.
    + rewrite Hq. by exists q.
  - destruct (rule_inputs_of_numeric d Hrule) as (t & r & i & l & Hin).
    rewrite (rule_based_binary64_on_numbers d t r i l Hin).
    destruct (rule_based_binary64_sum t r i l) as (-> & _ & H0 & H1).
    eexists. split; [reflexivity|]. by split.
  - intros v Hv. rewrite Hh in Hv. injection Hv as <-. by exists h.
  - intros _. by exists h.
Qed.

Lemma outputs_in_range_witness :
  (∃ p, predict_churn None test_health = Ok p ∧ (0 <= p <= 1)%Q)
  ∧ (∃ f, _rule_based_churn_prediction_binary64 test_health = Ok f
          ∧ PrimFloat.leb 0.0 f = true ∧ PrimFloat.leb f 1.0 = true)
  ∧ (∀ v, calculate_health_score test_health = Ok v →
       ∃ h, v = VNum h ∧ (0 <= h <= 100)%Q)
  ∧ (bounded_fields test_health →
     ∃ h, calculate_health_score test_health = Ok (VNum h)
          ∧ (0 <= h <= 100)%Q).
Proof.
  apply (outputs_in_range None test_health).
  - reflexivity.
  - intros inference row p H. discriminate H.
Defined.

(** A string or [None] under one of the four fields makes the rule-based
    estimator raise. *)
Lemma rule_based_raises_on_non_number d :
  ¬ numeric_on rule_fields d →
  _rule_based_churn_prediction d = Raise TypeError.
Proof.
  intros Hd. unfold _rule_based_churn_prediction, get, py_gt.
  destruct (d !! "tenure_months") as [[t| |]|] eqn:Et;
  destruct (d !! "monthly_revenue") as [[r| |]|] eqn:Er;
  destruct (d !! "total_interactions") as [[i| |]|] eqn:Ei;
  destruct (d !! "last_login_days") as [[l| |]|] eqn:El; simpl;
  try (exfalso; apply Hd; unfold numeric_on, rule_fields, absent_or; simpl;
       rewrite Et, Er, Ei, El; reflexivity);
  repeat match goal with
  | |- context [Qlt_bool ?x ?y] => destruct (Qlt_bool x y); simpl
  end; reflexivity.
Qed.

(** C5, as stated, fails: an entry that is not a number makes the
    rule-based estimator raise, and nothing catches what the fallback
    raises, with no artifact and with an artifact whose inference fails
    alike. *)
Lemma predict_churn_raises_on_string :
  predict_churn None (<["tenure_months" := VStr "abc"]> ∅) = Raise TypeError
  ∧ predict_churn (Some (λ _, Raise (ModelError "could not convert")))
      (<["tenure_months" := VStr "abc"]> ∅) = Raise TypeError.
Proof. split; reflexivity. Qed.

(** C5, amended: where the four fields the rule-based estimator reads are
    absent or numbers, the operation returns for every artifact state; a
    successful inference is returned as it is, and without an artifact or
    after a failed inference the result is the rule-based estimate, which
    lies in [0, 1]. *)
Theorem predict_churn_returns model d :
  numeric_on rule_fields d →
  ∃ p, predict_churn model d = Ok p
       ∧ (falls_back model d →
          _rule_based_churn_prediction d = Ok p ∧ (0 <= p <= 1)%Q)
       ∧ (∀ inference q, model = Some inference →
            inference (prepare_features d) = Ok q → p = q).
Proof.
  intros Hd. destruct (rule_based_in_unit_interval d Hd) as (q & Hq & Hqr).
  unfold predict_churn, falls_back. destruct model as [inference|]; simpl.
  - destruct (inference (prepare_features d)) as [p|e] eqn:E; simpl.
    + exists p. split; [done|]. split.
      * intros [?|(f & e & [= <-] & Hf)]; congruence.
      * intros f q' [= <-] Hf. congruence.
    + exists q. split; [done|]. split; [done|].
      intros f q' [= <-] Hf. congruence.
  - rewrite Hq. exists q. simpl. split; [done|]. split; [done|].
    intros f q' [=].
Qed.

Lemma predict_churn_returns_witness :
  ∃ p, predict_churn None test_high_risk = Ok p
       ∧ (falls_back None test_high_risk →
          _rule_based_churn_prediction test_high_risk = Ok p
          ∧ (0 <= p <= 1)%Q)
       ∧ (∀ inference q, None = Some inference →
            inference (prepare_features test_high_risk) = Ok q → p = q).
Proof. apply (predict_churn_returns None test_high_risk). reflexivity. Defined.

(** C6: the code departs from the scenario.  In fallback mode the profile
    triggers the increments 0.1 (tenure 3), 0.2 (revenue 45) and 0.1 (last
    login 21): the estimator returns 0.4, as an exact sum and as the
    floats add it, which is not above 0.5 and which the route puts in the
    Low tier, where the scenario, and the assertion of
    [test_churn_prediction_high_risk] on this request body, want a
    probability above 0.5 and the High tier. *)
Theorem fallback_scenario_is_low :
  (∃ p, predict_churn None test_high_risk = Ok p
        ∧ _rule_based_churn_prediction test_high_risk = Ok p
        ∧ (p == 0.1 + 0.2 + 0.1)%Q ∧ (p == 0.4)%Q
        ∧ ¬ (0.5 < p)%Q ∧ risk_level p = "Low")
  ∧ _rule_based_churn_prediction_binary64 test_high_risk = Ok 0.4%float
  ∧ above_half_binary64 0.4 = false
  ∧ risk_level_binary64 0.4 = "Low".
Proof.
  split.
  - eexists. split; [vm_compute; reflexivity|].
    split; [vm_compute; reflexivity|].
    split; [reflexivity|]. split; [reflexivity|].
    split; [intros H; vm_compute in H; discriminate | reflexivity].
  - repeat split; vm_compute; reflexivity.
Qed.

(** The other two scenarios of the tests, in fallback mode: the healthy
    customer triggers no increment, and the health score of the third
    request body is 75.6, "Good". *)
Example healthy_customer_scenario :
  ∃ p, predict_churn None test_healthy = Ok p
       ∧ (p == 0)%Q ∧ risk_level p = "Low".
Proof. eexists. split; [vm_compute; reflexivity|]. split; reflexivity. Qed.

Example health_score_scenario :
  ∃ h, calculate_health_score test_health = Ok (VNum h)
       ∧ (h == 75.6)%Q ∧ get_health_status h = "Good".
Proof. eexists. split; [vm_compute; reflexivity|]. split; reflexivity. Qed.

(** ** Absent fields *)

Lemma get_insert_ne d k v k' dflt :
  k ≠ k' → get (<[k := v]> d) k' dflt = get d k' dflt.
Proof. intros Hne. rewrite get_insert. by rewrite decide_False. Qed.

Lemma get_insert_eq d k v dflt : get (<[k := v]> d) k dflt = v.
Proof. rewrite get_insert. by rewrite decide_True. Qed.

Ltac simpl_gets :=
  rewrite ?get_insert_eq; rewrite ?get_insert_ne by done.

Lemma selected_churn_risk_insert_ne d k v :
  k ≠ "churn_risk" → k ≠ "churn_probability" →
  selected_churn_risk (<[k := v]> d) = selected_churn_risk d.
Proof.
  intros H1 H2. unfold selected_churn_risk, contains_key, getitem.
  rewrite get_insert_ne by done. by rewrite lookup_insert_ne.
Qed.

(** C3, as stated, fails: the health scorer reads an absent
    [last_login_days] as 30 and an absent [tenure_months] as 1, and the
    recommender's engagement level reads an absent [last_login_days] as
    30, so that the same profile with the field present and 0 gives
    another result. *)
Lemma absent_is_not_zero_everywhere :
  calculate_health_score (<["last_login_days" := VNum 0]> ∅)
    ≠ calculate_health_score ∅
  ∧ calculate_health_score (<["tenure_months" := VNum 0]> ∅)
    ≠ calculate_health_score ∅
  ∧ get_recommendations
      (<["last_login_days" := VNum 0]>
         (<["churn_probability" := VNum 0.8]>
            (<["total_interactions" := VNum 3]> ∅)))
    ≠ get_recommendations
        (<["churn_probability" := VNum 0.8]>
           (<["total_interactions" := VNum 3]> ∅)).
Proof. repeat split; vm_compute; discriminate. Qed.

(** C3, amended: for each of the six fields, a profile without the field
    gives the same result as the profile with the field present and equal
    to 0 in the rule-based estimator; to 30 for [last_login_days], 1 for
    [tenure_months] and 0 for the others in the health score; and, in the
    recommendations, to 30 for [last_login_days] when the high tier is
    selected and to 0 otherwise. *)
Theorem absent_field_defaults d k :
  k ∈ feature_columns →
  d !! k = None →
  _rule_based_churn_prediction (<[k := VNum 0]> d)
    = _rule_based_churn_prediction d
  ∧ calculate_health_score (<[k := VNum (health_default k)]> d)
    = calculate_health_score d
  ∧ get_recommendations (<[k := VNum (recommender_default d k)]> d)
    = get_recommendations d.
Proof.
  intros Hk Hnone. unfold feature_columns in Hk.
  rewrite !elem_of_cons, elem_of_nil in Hk.
  assert (Hget : ∀ dflt, get d k dflt = dflt)
    by (intros; by apply get_absent).
  split; [|split].
  - unfold _rule_based_churn_prediction.
    destruct Hk as [->|[->|[->|[->|[->|[->|[]]]]]]]; simpl_gets;
      rewrite ?Hget; reflexivity.
  - unfold calculate_health_score, _calculate_engagement_score,
      _calculate_usage_score, _calculate_satisfaction_score,
      _calculate_financial_score, _calculate_support_score.
    destruct Hk as [->|[->|[->|[->|[->|[->|[]]]]]]]; simpl_gets;
      rewrite ?Hget; reflexivity.
  - unfold get_recommendations, candidate_actions, _get_engagement_level,
      recommender_default, high_tier.
    destruct Hk as [->|[->|[->|[->|[->|[->|[]]]]]]];
      rewrite selected_churn_risk_insert_ne by done; simpl_gets;
      rewrite ?Hget; try reflexivity.
    destruct (selected_churn_risk d) as [[p| |]|]; try reflexivity.
    unfold py_gt. simpl. destruct (Qlt_bool 0.7 p); reflexivity.
Qed.

Lemma absent_field_defaults_witness :
  let d : gmap string value :=
    <["churn_probability" := VNum 0.8]> (<["total_interactions" := VNum 3]> ∅)
  in
  _rule_based_churn_prediction (<["last_login_days" := VNum 0]> d)
    = _rule_based_churn_prediction d
  ∧ calculate_health_score (<["last_login_days" := VNum 30]> d)
    = calculate_health_score d
  ∧ get_recommendations (<["last_login_days" := VNum 30]> d)
    = get_recommendations d.
Proof.
  intros d. apply (absent_field_defaults d "last_login_days").
  - unfold feature_columns. do 4 apply list_elem_of_further.
    apply list_elem_of_here.
  - reflexivity.
Defined.

(** ** The recommender: deduplication and priorities *)

Lemma insert_keys_NoDup l : ∀ keys,
  NoDup keys → NoDup (foldl insert_key keys l).
Proof.
  induction l as [|k l IH]; intros keys Hkeys; simpl; [done|].
  apply IH. unfold insert_key. case_bool_decide; [done|].
  apply NoDup_app. split; [done|]. split; [|apply NoDup_singleton].
  intros x Hx ->%list_elem_of_singleton. done.
Qed.

Lemma insert_keys_fresh l : ∀ keys,
  NoDup (keys ++ l) → foldl insert_key keys l = keys ++ l.
Proof.
  induction l as [|k l IH]; intros keys Hnd; simpl.
  - by rewrite app_nil_r.
  - assert (Hk : k ∉ keys).
    { apply NoDup_app in Hnd as (_ & Hdisj & _). intros Hin.
      apply (Hdisj k Hin). left. }
    unfold insert_key at 2. rewrite bool_decide_eq_false_2 by done.
    rewrite IH; rewrite <- app_assoc; done.
Qed.

Lemma insert_keys_elem_of l x : ∀ keys,
  x ∈ foldl insert_key keys l ↔ x ∈ keys ∨ x ∈ l.
Proof.
  induction l as [|k l IH]; intros keys; simpl.
  - rewrite elem_of_nil. tauto.
  - rewrite IH, elem_of_cons. unfold insert_key. case_bool_decide.
    + split; [tauto|]. intros [?|[->|?]]; auto.
    + rewrite elem_of_app, list_elem_of_singleton. tauto.
Qed.

(** The keys of a dict are distinct. *)
Lemma fromkeys_NoDup l : NoDup (fromkeys l).
Proof. apply insert_keys_NoDup, NoDup_nil_2. Qed.

(** They are the elements of the list. *)
Lemma fromkeys_elem_of l x : x ∈ fromkeys l ↔ x ∈ l.
Proof.
  etransitivity; [apply (insert_keys_elem_of l x [])|].
  rewrite elem_of_nil. tauto.
Qed.

(** A list without duplicates comes back as it is. *)
Lemma fromkeys_NoDup_id l : NoDup l → fromkeys l = l.
Proof. intros Hl. by apply (insert_keys_fresh l []). Qed.

Lemma prioritize_action l : action <$> prioritize l = l.
Proof.
  unfold prioritize. apply list_eq. intros i.
  rewrite list_lookup_fmap, list_lookup_imap. by destruct (l !! i).
Qed.

Lemma prioritize_length l : length (prioritize l) = length l.
Proof. apply length_imap. Qed.

Lemma prioritize_lookup l i r :
  prioritize l !! i = Some r →
  priority r = (if (i <? 2)%nat then "High"
                else if (i <? 4)%nat then "Medium" else "Low")
  ∧ category r = _categorize_recommendation (action r).
Proof.
  unfold prioritize. rewrite list_lookup_imap.
  destruct (l !! i); simpl; [|discriminate]. by intros [= <-].
Qed.

(** ** The recommender: candidates *)

Lemma pool_low_engagement :
  getitem intervention_strategies "high_churn_low_engagement"
  = Ok ["Schedule personal check-in call"; "Offer product training session";
        "Provide dedicated customer success manager";
        "Send personalized onboarding materials"].
Proof. reflexivity. Qed.

Lemma pool_low_usage :
  getitem intervention_strategies "high_churn_low_usage"
  = Ok ["Offer feature demo session"; "Provide use case examples";
        "Schedule product walkthrough"; "Send tutorial videos"].
Proof. reflexivity. Qed.

Lemma pool_support_issues :
  getitem intervention_strategies "high_churn_support_issues"
  = Ok ["Priority support queue assignment"; "Technical expert consultation";
        "Product feedback session"; "Escalate to development team"].
Proof. reflexivity. Qed.

Lemma pool_low_revenue :
  getitem intervention_strategies "low_revenue"
  = Ok ["Discuss upgrade opportunities"; "Show ROI calculations";
        "Offer limited-time discount"; "Highlight premium features"].
Proof. reflexivity. Qed.

Lemma pool_engagement_drop :
  getitem intervention_strategies "engagement_drop"
  = Ok ["Send re-engagement email campaign"; "Offer new feature preview";
        "Schedule product update call"; "Provide industry insights"].
Proof. reflexivity. Qed.

Lemma candidate_actions_shape d c :
  candidate_actions d = Ok c →
  ∃ b1 b2 b3 b4 b5,
    c = assemble b1 b2 b3 b4 b5
    ∧ (b4 = true → b1 = false ∧ b2 = false ∧ b3 = false).
Proof.
  unfold candidate_actions.
  rewrite pool_low_engagement, pool_low_usage, pool_support_issues,
    pool_low_revenue, pool_engagement_drop.
  destruct (selected_churn_risk d) as [risk|]; res_step; [|discriminate].
  destruct (py_gt risk (VNum 0.7)) as [[|]|]; res_step; [| |discriminate].
  - destruct (_get_engagement_level d) as [e|]; res_step; [|discriminate].
    destruct (py_lt e (VNum 50)) as [b1|]; res_step; [|discriminate].
    destruct (py_lt (get d "feature_usage_score" (VNum 0)) (VNum 3))
      as [b2|]; [|destruct b1; discriminate].
    destruct (py_gt (get d "support_tickets" (VNum 0)) (VNum 3))
      as [b3|]; [|destruct b1, b2; discriminate].
    destruct (py_lt (get d "monthly_revenue" (VNum 0)) (VNum 100))
      as [b5|]; [|destruct b1, b2, b3; discriminate].
    intros Hc. exists b1, b2, b3, false, b5. split; [|discriminate].
    destruct b1, b2, b3, b5; simpl in Hc; injection Hc as <-; reflexivity.
  - destruct (py_gt risk (VNum 0.4)) as [[|]|]; res_step; [| |discriminate].
    + destruct (py_gt (get d "last_login_days" (VNum 0)) (VNum 14))
        as [b4|]; res_step; [|discriminate].
      destruct (py_lt (get d "monthly_revenue" (VNum 0)) (VNum 100))
        as [b5|]; [|destruct b4; discriminate].
      intros Hc. exists false, false, false, b4, b5. split; [|done].
      destruct b4, b5; simpl in Hc; injection Hc as <-; reflexivity.
    + destruct (py_lt (get d "monthly_revenue" (VNum 0)) (VNum 100))
        as [b5|]; res_step; [|discriminate].
      intros Hc. exists false, false, false, false, b5. split; [|done].
      destruct b5; simpl in Hc; injection Hc as <-; reflexivity.
Qed.

Lemma appendable_actions_NoDup : NoDup appendable_actions.
Proof. apply (bool_decide_unpack _). vm_compute. reflexivity. Qed.

Lemma assemble_NoDup b1 b2 b3 b4 b5 : NoDup (assemble b1 b2 b3 b4 b5).
Proof.
  destruct b1, b2, b3, b4, b5; apply (bool_decide_unpack _); vm_compute;
    reflexivity.
Qed.

Lemma candidate_actions_NoDup d c : candidate_actions d = Ok c → NoDup c.
Proof.
  intros (b1 & b2 & b3 & b4 & b5 & -> & _)%candidate_actions_shape.
  apply assemble_NoDup.
Qed.

Lemma candidate_actions_length d c :
  candidate_actions d = Ok c → (length c ≤ 6)%nat.
Proof.
  intros (b1 & b2 & b3 & b4 & b5 & -> & Hex)%candidate_actions_shape.
  destruct b4; [destruct Hex as (-> & -> & ->); [done|]|];
    destruct b5; try destruct b1, b2, b3; vm_compute; lia.
Qed.

Lemma selected_churn_risk_numeric d :
  numeric_on recommender_keys d → ∃ p, selected_churn_risk d = Ok (VNum p).
Proof.
  intros Hd.
  destruct (get_is_num _ d "churn_risk" 0 Hd) as [r Hr];
    [unfold recommender_keys; rewrite !elem_of_cons; tauto|].
  destruct (get_is_num _ d "churn_probability" 0 Hd) as [p Hp];
    [unfold recommender_keys; rewrite !elem_of_cons; tauto|].
  unfold selected_churn_risk, contains_key, getitem. rewrite Hr.
  unfold get in Hp. destruct (d !! "churn_probability") as [v|] eqn:E.
  - rewrite bool_decide_eq_true_2 by eauto. exists p. by rewrite <- Hp.
  - rewrite bool_decide_eq_false_2 by (by intros [? ?]). by exists r.
Qed.

Lemma engagement_level_on_numbers d i l :
  get d "total_interactions" (VNum 0) = VNum i →
  get d "last_login_days" (VNum 30) = VNum l →
  ∃ e, _get_engagement_level d = Ok (VNum e).
Proof.
  intros Hi Hl. unfold _get_engagement_level. rewrite Hi, Hl. simpl.
  case_Qlt; simpl; case_Qlt; simpl; eexists; reflexivity.
Qed.

(** On numeric entries the selection runs to its end. *)
Lemma candidate_actions_returns d :
  numeric_on recommender_keys d → ∃ c, candidate_actions d = Ok c.
Proof.
  intros Hd.
  assert (Hin : ∀ k, k ∈ recommender_keys ↔
    k = "churn_risk" ∨ k = "churn_probability" ∨ k = "total_interactions"
    ∨ k = "last_login_days" ∨ k = "feature_usage_score"
    ∨ k = "support_tickets" ∨ k = "monthly_revenue").
  { intros k. unfold recommender_keys. rewrite !elem_of_cons, elem_of_nil.
    tauto. }
  destruct (selected_churn_risk_numeric d Hd) as [p Hp].
  destruct (get_is_num _ d "total_interactions" 0 Hd) as [i Hi];
    [apply Hin; tauto|].
  destruct (get_is_num _ d "last_login_days" 30 Hd) as [l Hl];
    [apply Hin; tauto|].
  destruct (get_is_num _ d "last_login_days" 0 Hd) as [l0 Hl0];
    [apply Hin; tauto|].
  destruct (get_is_num _ d "feature_usage_score" 0 Hd) as [u Hu];
    [apply Hin; tauto|].
  destruct (get_is_num _ d "support_tickets" 0 Hd) as [s Hs];
    [apply Hin; tauto|].
  destruct (get_is_num _ d "monthly_revenue" 0 Hd) as [r Hr];
    [apply Hin; tauto|].
  destruct (engagement_level_on_numbers d i l Hi Hl) as [e He].
  unfold candidate_actions.
  rewrite pool_low_engagement, pool_low_usage, pool_support_issues,
    pool_low_revenue, pool_engagement_drop.
  rewrite Hp, He, Hl0, Hu, Hs, Hr. unfold py_gt. simpl.
  destruct (Qlt_bool 0.7 p); [|destruct (Qlt_bool 0.4 p)]; simpl;
    repeat match goal with
    | |- context [Qlt_bool ?x ?y] => destruct (Qlt_bool x y); simpl
    end; eexists; reflexivity.
Qed.

Lemma engagement_level_closed d i l :
  get d "total_interactions" (VNum 0) = VNum i →
  get d "last_login_days" (VNum 30) = VNum l →
  _get_engagement_level d = Ok (VNum (engagement_level_q i l)).
Proof.
  intros Hi Hl. unfold _get_engagement_level, engagement_level_q.
  rewrite Hi, Hl. simpl. destruct (Qle_bool l 7), (Qle_bool l 30); reflexivity.
Qed.

(** On numbers the selection is the table of its branches. *)
Lemma candidate_actions_table d risk i l30 l0 u s r :
  recommender_inputs d risk i l30 l0 u s r →
  candidate_actions d = Ok (selected_actions risk i l30 l0 u s r).
Proof.
  intros (Hrisk & Hi & Hl30 & Hl0 & Hu & Hs & Hr).
  unfold candidate_actions, selected_actions.
  rewrite pool_low_engagement, pool_low_usage, pool_support_issues,
    pool_low_revenue, pool_engagement_drop.
  rewrite Hrisk, (engagement_level_closed d i l30 Hi Hl30), Hl0, Hu, Hs, Hr.
  unfold py_gt, py_lt. res_step.
  destruct (Qlt_bool 0.7 risk), (Qlt_bool 0.4 risk),
    (Qlt_bool (engagement_level_q i l30) 50), (Qlt_bool u 3), (Qlt_bool 3 s),
    (Qlt_bool 14 l0), (Qlt_bool r 100); reflexivity.
Qed.

Lemma recommendations_table d risk i l30 l0 u s r :
  recommender_inputs d risk i l30 l0 u s r →
  get_recommendations d
  = Ok (prioritize (take 5 (selected_actions risk i l30 l0 u s r))).
Proof.
  intros Hd. unfold get_recommendations.
  rewrite (candidate_actions_table _ _ _ _ _ _ _ _ Hd). res_step.
  rewrite fromkeys_NoDup_id; [reflexivity|]. apply assemble_NoDup.
Qed.

(** Whatever risk is selected, the list returned shows its tier. *)
Lemma recommendations_by_risk d p i l30 l0 u s r :
  selected_churn_risk d = Ok (VNum p) →
  recommender_fields d i l30 l0 u s r →
  ∃ recs, get_recommendations d = Ok recs
          ∧ actions_of_tier p l0 u s r (action <$> recs).
Proof.
  intros Hp (Hi & Hl30 & Hl0 & Hu & Hs & Hr).
  assert (Hin : recommender_inputs d p i l30 l0 u s r) by done.
  eexists. split; [exact (recommendations_table _ _ _ _ _ _ _ _ Hin)|].
  rewrite prioritize_action. unfold actions_of_tier, selected_actions.
  destruct (Qlt_bool_reflect 0.7 p), (Qlt_bool_reflect 0.4 p);
    (split; [|split]); intros; try lra.
  - by exists (Qlt_bool (engagement_level_q i l30) 50).
  - by destruct (Qlt_bool 14 l0), (Qlt_bool r 100).
  - by destruct (Qlt_bool 14 l0), (Qlt_bool r 100).
Qed.

(** ** Claims on the recommender *)

(** C4: whatever list the engine returns, no action occurs in it twice,
    it has at most five entries, and its priorities go by position, High
    at 0 and 1, Medium at 2 and 3, Low at 4, and thus never rise along the
    list; and the engine does return a list on every profile whose
    entries, the churn probability among them, are numbers. *)
Theorem recommendations_wellformed d :
  (numeric_on recommender_keys d → ∃ recs, get_recommendations d = Ok recs)
  ∧ ∀ recs, get_recommendations d = Ok recs →
      NoDup (action <$> recs)
      ∧ (length recs ≤ 5)%nat
      ∧ (∀ i r, recs !! i = Some r →
           ((i = 0 ∨ i = 1)%nat → priority r = "High")
           ∧ ((i = 2 ∨ i = 3)%nat → priority r = "Medium")
           ∧ (i = 4%nat → priority r = "Low"))
      ∧ (∀ i j ri rj, (i ≤ j)%nat →
           recs !! i = Some ri → recs !! j = Some rj →
           (priority_rank (priority rj) ≤ priority_rank (priority ri))%nat).
Proof.
  unfold get_recommendations. split.
  - intros Hd. destruct (candidate_actions_returns d Hd) as [c ->].
    res_step. eauto.
  - intros recs Hrecs.
    destruct (candidate_actions d) as [c|]; [|discriminate].
    injection Hrecs as <-. set (kept := take 5 (fromkeys c)).
    assert (Hlen : (length kept ≤ 5)%nat)
      by (unfold kept; rewrite length_take; lia).
    split; [|split; [|split]].
    + rewrite prioritize_action. unfold kept.
      eapply sublist_NoDup; [apply fromkeys_NoDup | apply sublist_take].
    + by rewrite prioritize_length.
    + intros i r [Hr _]%prioritize_lookup. rewrite Hr.
      repeat split; intros; destruct_or?; subst; reflexivity.
    + intros i j ri rj Hij [Hi _]%prioritize_lookup [Hj _]%prioritize_lookup.
      rewrite Hi, Hj.
      destruct (Nat.ltb_spec i 2), (Nat.ltb_spec i 4), (Nat.ltb_spec j 2),
        (Nat.ltb_spec j 4); try lia;
        change (priority_rank "High") with 2%nat;
        change (priority_rank "Medium") with 1%nat;
        change (priority_rank "Low") with 0%nat; lia.
Qed.

(** The truncation does cut: with every high-tier branch and the revenue
    branch taken there are six candidates, and the fifth entry is Low. *)
Example recommendations_five_entries :
  candidate_actions
    (<["churn_probability" := VNum 0.8]> (profile 0 0 0 6 40 0))
  = Ok ["Schedule personal check-in call"; "Offer product training session";
        "Offer feature demo session"; "Provide use case examples";
        "Priority support queue assignment"; "Discuss upgrade opportunities"]
  ∧ get_recommendations
      (<["churn_probability" := VNum 0.8]> (profile 0 0 0 6 40 0))
    = Ok [Recommendation "Schedule personal check-in call" "High"
            "Personal Outreach";
          Recommendation "Offer product training session" "High"
            "Product Education";
          Recommendation "Offer feature demo session" "Medium"
            "Product Education";
          Recommendation "Provide use case examples" "Medium" "Engagement";
          Recommendation "Priority support queue assignment" "Low"
            "Support Enhancement"].
Proof. split; reflexivity. Qed.

(** C7: on the request body of the recommendations test the selected
    risk is 0.65, in the medium tier; a last login of 14 days is not above
    14, so nothing of [engagement_drop] is appended; a revenue of 75 is
    below 100, so the first [low_revenue] action is; and the engine
    returns that action alone, with priority High at position 0. *)
Theorem recommendations_scenario :
  selected_churn_risk test_recommendations = Ok (VNum 0.65)
  ∧ py_gt (VNum 0.65) (VNum 0.7) = Ok false
  ∧ py_gt (VNum 0.65) (VNum 0.4) = Ok true
  ∧ risk_level 0.65 = "Medium"
  ∧ py_gt (get test_recommendations "last_login_days" (VNum 0)) (VNum 14)
    = Ok false
  ∧ py_lt (get test_recommendations "monthly_revenue" (VNum 0)) (VNum 100)
    = Ok true
  ∧ candidate_actions test_recommendations
    = Ok (assemble false false false false true)
  ∧ pool_slice 1 "low_revenue" = ["Discuss upgrade opportunities"]
  ∧ get_recommendations test_recommendations
    = Ok [Recommendation "Discuss upgrade opportunities" "High" "Commercial"].
Proof. repeat split; reflexivity. Qed.

(** The selection reads the dict through the selected risk and through
    the fields only. *)
Lemma candidate_actions_ext d d' :
  selected_churn_risk d = selected_churn_risk d' →
  (∀ k dflt, k ≠ "churn_risk" → k ≠ "churn_probability" →
     get d k dflt = get d' k dflt) →
  candidate_actions d = candidate_actions d'.
Proof.
  intros Hs Hg. unfold candidate_actions, _get_engagement_level.
  rewrite Hs. rewrite !Hg by done. reflexivity.
Qed.

Lemma get_recommendations_ext d d' :
  selected_churn_risk d = selected_churn_risk d' →
  (∀ k dflt, k ≠ "churn_risk" → k ≠ "churn_probability" →
     get d k dflt = get d' k dflt) →
  get_recommendations d = get_recommendations d'.
Proof.
  intros Hs Hg. unfold get_recommendations.
  by rewrite (candidate_actions_ext d d' Hs Hg).
Qed.

Lemma selected_churn_risk_present d p :
  d !! "churn_probability" = Some p → selected_churn_risk d = Ok p.
Proof.
  intros Hp. unfold selected_churn_risk, contains_key, getitem. rewrite Hp.
  by rewrite bool_decide_eq_true_2 by eauto.
Qed.

Lemma selected_churn_risk_absent d :
  d !! "churn_probability" = None →
  selected_churn_risk d = Ok (get d "churn_risk" (VNum 0)).
Proof.
  intros Hp. unfold selected_churn_risk, contains_key. rewrite Hp.
  by rewrite bool_decide_eq_false_2 by (by intros [? ?]).
Qed.

(** C9: when [churn_probability] is present it is the risk that selects
    the tier, and [churn_risk] is ignored: setting it to any value, or
    removing it, changes nothing, and the list returned is that of the
    tier of [churn_probability].  When only [churn_risk] is present it is
    the risk used, exactly as if it had been given as
    [churn_probability], and the list is that of its tier.  When neither
    is present the risk used is 0: no branch of the high or of the medium
    tier fires and the list is the revenue step alone. *)
Theorem churn_probability_precedence d :
  (∀ p, d !! "churn_probability" = Some p →
     selected_churn_risk d = Ok p
     ∧ (∀ r, get_recommendations (<["churn_risk" := r]> d)
             = get_recommendations d)
     ∧ get_recommendations (delete "churn_risk" d) = get_recommendations d)
  ∧ (∀ r, d !! "churn_probability" = None → d !! "churn_risk" = Some r →
       selected_churn_risk d = Ok r
       ∧ get_recommendations (<["churn_probability" := r]> d)
         = get_recommendations d)
  ∧ (d !! "churn_probability" = None → d !! "churn_risk" = None →
       selected_churn_risk d = Ok (VNum 0)
       ∧ candidate_actions d = revenue_step d
       ∧ get_recommendations (<["churn_probability" := VNum 0]> d)
         = get_recommendations d)
  ∧ (∀ i l30 l0 u s r, recommender_fields d i l30 l0 u s r →
       (∀ p v, d !! "churn_probability" = Some (VNum p) →
          ∃ recs, get_recommendations (<["churn_risk" := v]> d) = Ok recs
                  ∧ get_recommendations d = Ok recs
                  ∧ actions_of_tier p l0 u s r (action <$> recs))
       ∧ (∀ p, d !! "churn_probability" = None →
            d !! "churn_risk" = Some (VNum p) →
            ∃ recs, get_recommendations d = Ok recs
                    ∧ actions_of_tier p l0 u s r (action <$> recs))
       ∧ (d !! "churn_probability" = None → d !! "churn_risk" = None →
            ∃ recs, get_recommendations d = Ok recs
                    ∧ action <$> recs
                      = if Qlt_bool r 100
                        then ["Discuss upgrade opportunities"] else [])).
Proof.
  assert (Hset : ∀ p r, d !! "churn_probability" = Some p →
    get_recommendations (<["churn_risk" := r]> d) = get_recommendations d).
  { intros p r Hp. apply get_recommendations_ext.
    - rewrite !(selected_churn_risk_present _ p); [done..|].
      by rewrite lookup_insert_ne.
    - intros k dflt Hk _. by apply get_insert_ne. }
  split; [|split; [|split]].
  - intros p Hp. split; [by apply selected_churn_risk_present|].
    split; [intros r; by apply (Hset p)|]. apply get_recommendations_ext.
    + rewrite !(selected_churn_risk_present _ p); [done..|].
      by rewrite lookup_delete_ne.
    + intros k dflt Hk _. unfold get. by rewrite lookup_delete_ne.
  - intros r Hp Hr.
    assert (Hsel : selected_churn_risk d = Ok r).
    { rewrite selected_churn_risk_absent by done. unfold get. by rewrite Hr. }
    split; [exact Hsel|]. apply get_recommendations_ext.
    + rewrite Hsel. apply selected_churn_risk_present, lookup_insert_eq.
    + intros k dflt _ Hk. by apply get_insert_ne.
  - intros Hp Hr.
    assert (Hsel : selected_churn_risk d = Ok (VNum 0)).
    { rewrite selected_churn_risk_absent by done. unfold get. by rewrite Hr. }
    split; [exact Hsel|]. split.
    + unfold candidate_actions, revenue_step. rewrite Hsel, pool_low_revenue.
      res_step. change (py_gt (VNum 0) (VNum 0.7)) with (Ok false).
      change (py_gt (VNum 0) (VNum 0.4)) with (Ok false). res_step.
      destruct (py_lt _ _) as [[|]|]; reflexivity.
    + apply get_recommendations_ext.
      * rewrite Hsel. apply selected_churn_risk_present, lookup_insert_eq.
      * intros k dflt _ Hk. by apply get_insert_ne.
  - intros i l30 l0 u s r Hd. split; [|split].
    + intros p v Hp.
      destruct (recommendations_by_risk d p i l30 l0 u s r) as (recs & Hr & Ht);
        [by apply selected_churn_risk_present | done |].
      exists recs. by rewrite (Hset (VNum p) v Hp).
    + intros p Hp Hr. apply (recommendations_by_risk d p i l30 l0 u s r);
        [|done].
      rewrite selected_churn_risk_absent by done. unfold get. by rewrite Hr.
    + intros Hp Hr.
      destruct (recommendations_by_risk d 0 i l30 l0 u s r)
        as (recs & Hrecs & _ & _ & Hlow); [|done|].
      { rewrite selected_churn_risk_absent by done. unfold get.
        by rewrite Hr. }
      exists recs. split; [done|]. rewrite Hlow by (by vm_compute).
      by destruct (Qlt_bool r 100).
Qed.

(** On the record with every branch open, the risk under
    [churn_probability] decides, whatever [churn_risk] holds. *)
Example churn_probability_wins :
  get_recommendations
    (<["churn_risk" := VNum 0.1]>
       (<["churn_probability" := VNum 0.9]> (profile 0 0 0 6 40 0)))
  = Ok [Recommendation "Schedule personal check-in call" "High"
          "Personal Outreach";
        Recommendation "Offer product training session" "High"
          "Product Education";
        Recommendation "Offer feature demo session" "Medium"
          "Product Education";
        Recommendation "Provide use case examples" "Medium" "Engagement";
        Recommendation "Priority support queue assignment" "Low"
          "Support Enhancement"]
  ∧ get_recommendations
      (<["churn_risk" := VNum 0.9]>
         (<["churn_probability" := VNum 0.1]> (profile 0 0 0 6 40 0)))
    = Ok [Recommendation "Discuss upgrade opportunities" "High" "Commercial"]
  ∧ get_recommendations (<["churn_risk" := VNum 0.9]> (profile 0 0 0 6 40 0))
    = get_recommendations
        (<["churn_probability" := VNum 0.9]> (profile 0 0 0 6 40 0)).
Proof. repeat split; reflexivity. Qed.

(** C10: the eight actions the branches can append are pairwise distinct
    and every candidate is one of them, so removing duplicates leaves
    every candidate list as it is, the engine equals the engine without
    that step on every input, and there are never more than six
    candidates. *)
Theorem deduplication_removes_nothing d :
  NoDup appendable_actions
  ∧ length appendable_actions = 8%nat
  ∧ get_recommendations d = get_recommendations_without_dedup d
  ∧ (∀ c, candidate_actions d = Ok c →
       fromkeys c = c ∧ (length c ≤ 6)%nat ∧ c ⊆ appendable_actions).
Proof.
  split; [apply appendable_actions_NoDup|]. split; [reflexivity|]. split.
  - unfold get_recommendations, get_recommendations_without_dedup.
    destruct (candidate_actions d) as [c|e] eqn:Hc; [|reflexivity].
    res_step. by rewrite (fromkeys_NoDup_id c (candidate_actions_NoDup d c Hc)).
  - intros c Hc. split; [|split].
    + by apply fromkeys_NoDup_id, (candidate_actions_NoDup d).
    + by apply (candidate_actions_length d).
    + apply candidate_actions_shape in Hc
        as (b1 & b2 & b3 & b4 & b5 & -> & _).
      intros x. unfold assemble, appendable_actions.
      rewrite !elem_of_app. destruct b1, b2, b3, b4, b5;
        rewrite ?elem_of_nil; tauto.
Qed.

(** ** Categories *)


Lemma append_nil b : "" +:+ b = b.
Proof. reflexivity. Qed.









Example categorize_ignores_case :
  _categorize_recommendation "SCHEDULE A CALL" = "Personal Outreach"
  ∧ _categorize_recommendation "Offer Training, then a call"
    = "Personal Outreach"
  ∧ _categorize_recommendation "Technical DEMO" = "Product Education"
  ∧ _categorize_recommendation "Upgrade support" = "Support Enhancement"
  ∧ _categorize_recommendation "Show ROI calculations" = "Engagement".
Proof. repeat split; reflexivity. Qed.

(** * Further properties of the code *)

(** ** The rule-based estimator *)

Lemma rule_inputs_on_numbers d t r i l :
  rule_inputs d t r i l →
  ∃ p, _rule_based_churn_prediction d = Ok p
       ∧ (p == Qmin (increments_sum t r i l) 1)%Q.
Proof. intros (Ht & Hr & Hi & Hl). by apply rule_based_on_numbers. Qed.

Lemma increments_sum_le_1 t r i l : (increments_sum t r i l <= 1)%Q.
Proof.
  unfold increments_sum, tenure_increment, revenue_increment,
    interactions_increment, login_increment.
  case_Qlt; vm_compute; discriminate.
Qed.

(** X1: the cap of the rule-based estimator never cuts.  As the floats
    of the source add them, the increments never come to more than 1.0,
    so the value returned is their plain sum, between 0.0 and 1.0. *)
Theorem rule_based_cap_is_idle d t r i l :
  rule_inputs d t r i l →
  ∃ f, _rule_based_churn_prediction_binary64 d = Ok f
       ∧ f = sum_binary64 (triggered_increments t r i l)
       ∧ PrimFloat.leb 0.0 f = true ∧ PrimFloat.leb f 1.0 = true.
Proof.
  intros Hd. rewrite (rule_based_binary64_on_numbers d t r i l Hd).
  destruct (rule_based_binary64_sum t r i l) as (-> & _ & H0 & H1).
  eexists. split; [reflexivity|]. split; [reflexivity|]. by split.
Qed.

Lemma rule_based_cap_is_idle_witness :
  ∃ f, _rule_based_churn_prediction_binary64 (profile 2 75 3 9 21 1) = Ok f
       ∧ f = sum_binary64 (triggered_increments 2 75 3 21)
       ∧ PrimFloat.leb 0.0 f = true ∧ PrimFloat.leb f 1.0 = true.
Proof.
  apply (rule_based_cap_is_idle (profile 2 75 3 9 21 1) 2 75 3 21).
  repeat split; reflexivity.
Defined.

(** X2: the rule-based estimator reads four keys and nothing else.
    Setting any other key to any value, a string or [None] included, or
    removing it, leaves the result as it is, be it a number or an
    exception. *)
Theorem rule_based_reads_four_fields d k :
  k ∉ rule_fields →
  (∀ v, _rule_based_churn_prediction (<[k := v]> d)
        = _rule_based_churn_prediction d)
  ∧ _rule_based_churn_prediction (delete k d)
    = _rule_based_churn_prediction d.
Proof.
  unfold rule_fields. rewrite !not_elem_of_cons.
  intros (H1 & H2 & H3 & H4 & _).
  unfold _rule_based_churn_prediction. split.
  - intros v. by rewrite !get_insert_ne by done.
  - unfold get. by rewrite !lookup_delete_ne by done.
Qed.

Lemma rule_based_reads_four_fields_witness :
  (∀ v, _rule_based_churn_prediction (<["support_tickets" := v]> test_high_risk)
        = _rule_based_churn_prediction test_high_risk)
  ∧ _rule_based_churn_prediction (delete "support_tickets" test_high_risk)
    = _rule_based_churn_prediction test_high_risk.
Proof.
  apply (rule_based_reads_four_fields test_high_risk "support_tickets").
  unfold rule_fields. rewrite !not_elem_of_cons, elem_of_nil.
  repeat split; first [discriminate | tauto].
Defined.

Lemma tenure_increment_antitone t t' :
  (t <= t')%Q → (tenure_increment t' <= tenure_increment t)%Q.
Proof. unfold tenure_increment. case_Qlt; intros; lra. Qed.

Lemma revenue_increment_antitone r r' :
  (r <= r')%Q → (revenue_increment r' <= revenue_increment r)%Q.
Proof. unfold revenue_increment. case_Qlt; intros; lra. Qed.

Lemma interactions_increment_antitone i i' :
  (i <= i')%Q → (interactions_increment i' <= interactions_increment i)%Q.
Proof. unfold interactions_increment. case_Qlt; intros; lra. Qed.

Lemma login_increment_monotone l l' :
  (l' <= l)%Q → (login_increment l' <= login_increment l)%Q.
Proof. unfold login_increment. case_Qlt; intros; lra. Qed.

(** X3: the rule-based estimate is monotone.  A customer with at least
    the tenure, the revenue and the interactions of another and a last
    login at least as recent never gets the higher estimate. *)
Theorem rule_based_monotone d d' t r i l t' r' i' l' :
  rule_inputs d t r i l →
  rule_inputs d' t' r' i' l' →
  (t <= t')%Q → (r <= r')%Q → (i <= i')%Q → (l' <= l)%Q →
  ∃ p p', _rule_based_churn_prediction d = Ok p
          ∧ _rule_based_churn_prediction d' = Ok p' ∧ (p' <= p)%Q.
Proof.
  intros (p & Hp & Heq)%rule_inputs_on_numbers
    (p' & Hp' & Heq')%rule_inputs_on_numbers Ht Hr Hi Hl.
  exists p, p'. split; [exact Hp|]. split; [exact Hp'|].
  rewrite Heq, Heq'. apply Q.min_le_compat_r. unfold increments_sum.
  repeat apply Qplus_le_compat;
    auto using tenure_increment_antitone, revenue_increment_antitone,
      interactions_increment_antitone, login_increment_monotone.
Qed.

Lemma rule_based_monotone_witness :
  ∃ p p', _rule_based_churn_prediction test_high_risk = Ok p
          ∧ _rule_based_churn_prediction test_healthy = Ok p'
          ∧ (p' <= p)%Q.
Proof.
  apply (rule_based_monotone test_high_risk test_healthy
           3 45 8 21 24 350 85 1);
    first [ by repeat split | by vm_compute ].
Defined.

(** X4: the extremes of the rule-based estimate.  It is 0 exactly when
    no signal is triggered (tenure of 12 or more, revenue of 100 or more,
    5 interactions or more, last login within 7 days), and 1 exactly when
    every signal is at its worst (tenure below 3, revenue below 50, fewer
    than 5 interactions, last login more than 30 days ago). *)
Theorem rule_based_extremes d t r i l :
  rule_inputs d t r i l →
  ∃ p, _rule_based_churn_prediction d = Ok p
       ∧ ((p == 0)%Q ↔ (12 <= t)%Q ∧ (100 <= r)%Q ∧ (5 <= i)%Q ∧ (l <= 7)%Q)
       ∧ ((p == 1)%Q ↔ (t < 3)%Q ∧ (r < 50)%Q ∧ (i < 5)%Q ∧ (30 < l)%Q).
Proof.
  intros (p & Hp & Heq)%rule_inputs_on_numbers. exists p.
  split; [exact Hp|]. rewrite Heq. clear p Hp Heq.
  unfold increments_sum, tenure_increment, revenue_increment,
    interactions_increment, login_increment.
  case_Qlt;
    (split; (split;
       [ intros H; first [ vm_compute in H; discriminate H
                         | repeat split; lra ]
       | intros (? & ? & ? & ?); first [ lra | vm_compute; reflexivity ] ])).
Qed.

Lemma rule_based_extremes_witness :
  ∃ p, _rule_based_churn_prediction test_healthy = Ok p
       ∧ ((p == 0)%Q
          ↔ (12 <= 24)%Q ∧ (100 <= 350)%Q ∧ (5 <= 85)%Q ∧ (1 <= 7)%Q)
       ∧ ((p == 1)%Q ↔ (24 < 3)%Q ∧ (350 < 50)%Q ∧ (85 < 5)%Q ∧ (30 < 1)%Q).
Proof.
  apply (rule_based_extremes test_healthy 24 350 85 1).
  repeat split; reflexivity.
Defined.

Lemma Qlt_bool_compat x y z : (x == y)%Q → Qlt_bool z x = Qlt_bool z y.
Proof. intros E. unfold Qlt_bool. by rewrite E. Qed.

Lemma risk_level_compat x y : (x == y)%Q → risk_level x = risk_level y.
Proof.
  intros E. unfold risk_level.
  by rewrite (Qlt_bool_compat x y 0.7 E), (Qlt_bool_compat x y 0.4 E).
Qed.

(** X5: the estimator as the floats compute it.  With [risk_score] a
    binary64 float, the test [churn_prob > 0.5] of the customers route
    decides as on the exact sum for every input, and so does the tier,
    but on one combination of branches: tenure below 3, revenue from 50 up
    to 100, fewer than 5 interactions and a last login over 7 and up to
    30 days.  There the increments add up to 0.7 exactly, which is Medium,
    while the float sum 0.0 + 0.3 + 0.1 + 0.2 + 0.1 lies above the float
    0.7, and the code answers High. *)
Theorem binary64_tier d t r i l :
  rule_inputs d t r i l →
  ∃ p, _rule_based_churn_prediction d = Ok p
       ∧ above_half_binary64 (rule_based_binary64 t r i l) = Qlt_bool 0.5 p
       ∧ (rounding_case t r i l = false →
          risk_level_binary64 (rule_based_binary64 t r i l) = risk_level p)
       ∧ (rounding_case t r i l = true →
          risk_level p = "Medium"
          ∧ risk_level_binary64 (rule_based_binary64 t r i l) = "High").
Proof.
  intros (p & Hp & Heq)%rule_inputs_on_numbers. exists p.
  split; [exact Hp|].
  rewrite (Qlt_bool_compat _ _ 0.5 Heq), (risk_level_compat _ _ Heq).
  clear p Hp Heq.
  unfold rule_based_binary64, rounding_case, increments_sum, tenure_increment,
    revenue_increment, interactions_increment, login_increment.
  destruct (Qlt_bool_reflect t 3), (Qlt_le_dec t 3); try lra;
  destruct (Qlt_bool_reflect t 12), (Qlt_le_dec t 12); try lra;
  destruct (Qlt_bool_reflect r 50), (Qlt_le_dec r 50); try lra;
  destruct (Qlt_bool_reflect r 100), (Qlt_le_dec r 100); try lra;
  destruct (Qlt_bool_reflect i 5), (Qlt_le_dec i 5); try lra;
  destruct (Qlt_bool_reflect 30 l), (Qlt_le_dec 30 l); try lra;
  destruct (Qlt_bool_reflect 7 l), (Qlt_le_dec 7 l); try lra;
  (split; [vm_compute; reflexivity|]);
  (split; intros Hcase; first [ discriminate Hcase
                              | split; vm_compute; reflexivity
                              | vm_compute; reflexivity ]).
Qed.

Lemma binary64_tier_witness :
  ∃ p, _rule_based_churn_prediction (profile 2 75 3 9 21 1) = Ok p
       ∧ above_half_binary64 (rule_based_binary64 2 75 3 21) = Qlt_bool 0.5 p
       ∧ (rounding_case 2 75 3 21 = false →
          risk_level_binary64 (rule_based_binary64 2 75 3 21) = risk_level p)
       ∧ (rounding_case 2 75 3 21 = true →
          risk_level p = "Medium"
          ∧ risk_level_binary64 (rule_based_binary64 2 75 3 21) = "High").
Proof.
  apply (binary64_tier (profile 2 75 3 9 21 1) 2 75 3 21).
  repeat split; reflexivity.
Defined.

(** ** [predict_churn] and its route *)

Lemma numeric_on_dec ks d : {numeric_on ks d} + {¬ numeric_on ks d}.
Proof.
  unfold numeric_on. destruct (forallb (absent_or is_number d) ks);
    [by left | right; discriminate].
Qed.

(** X6: when [predict_churn] raises.  It raises exactly when there is no
    successful inference (no artifact, or its inference failed) and one
    of the four fields of the rule-based estimator holds something that is
    not a number; the exception is then [TypeError], whatever the
    inference had raised, and the route answers 500.  In every other case
    it returns, and the route answers 200 with the rounded probability
    and the tier of the unrounded one. *)
Theorem predict_churn_raises_iff round model d :
  (falls_back model d ∧ ¬ numeric_on rule_fields d →
     predict_churn model d = Raise TypeError
     ∧ api_predict_churn round model d = Status500 TypeError)
  ∧ (¬ (falls_back model d ∧ ¬ numeric_on rule_fields d) →
     ∃ p, predict_churn model d = Ok p
          ∧ api_predict_churn round model d
            = Status200 (ChurnBody (round p 3%Z) (risk_level p))).
Proof.
  unfold api_predict_churn, predict_churn, falls_back.
  destruct (numeric_on_dec rule_fields d) as [Hnum|Hnum].
  - destruct (rule_based_in_unit_interval d Hnum) as (q & Hq & _).
    split; [intros [_ H]; contradiction|]. intros _.
    destruct model as [inference|]; simpl.
    + destruct (inference (prepare_features d)) as [p|e]; simpl.
      * by exists p.
      * rewrite Hq. by exists q.
    + rewrite Hq. by exists q.
  - pose proof (rule_based_raises_on_non_number d Hnum) as Hraise.
    destruct model as [inference|]; simpl.
    + destruct (inference (prepare_features d)) as [p|e] eqn:E; simpl.
      * split; [|by exists p].
        intros [[?|(f & e & [= <-] & Hf)] _]; congruence.
      * rewrite Hraise. split; [done|]. intros H. exfalso. apply H.
        split; [|done]. right. by exists inference, e.
    + rewrite Hraise. split; [done|]. intros H. exfalso. apply H.
      split; [by left | done].
Qed.

Lemma get_insert_default d k k' dflt :
  d !! k = None → get (<[k := dflt]> d) k' dflt = get d k' dflt.
Proof.
  intros Hk. rewrite get_insert. case_decide; [|done].
  subst. by rewrite get_absent.
Qed.

(** X7: what the trained path sees.  [prepare_features] zero-fills each
    of the six features that is absent and ignores every other key, and
    a successful inference is returned as it is: two records with the
    same six default-filled features get the same probability. *)
Theorem trained_path_sees_six_features inference d :
  (∀ k v, k ∉ feature_columns →
     prepare_features (<[k := v]> d) = prepare_features d)
  ∧ (∀ k, d !! k = None →
       prepare_features (<[k := VNum 0]> d) = prepare_features d)
  ∧ (∀ d' p, prepare_features d' = prepare_features d →
       inference (prepare_features d) = Ok p →
       predict_churn (Some inference) d' = Ok p).
Proof.
  split; [|split].
  - intros k v. unfold feature_columns. rewrite !not_elem_of_cons.
    intros (H1 & H2 & H3 & H4 & H5 & H6 & _). unfold prepare_features.
    by rewrite !get_insert_ne by done.
  - intros k Hk. unfold prepare_features.
    by rewrite !(get_insert_default d k _ _ Hk).
  - intros d' p Hd' Hp. unfold predict_churn. rewrite Hd', Hp. reflexivity.
Qed.

(** ** The health score *)

Lemma engagement_closed d i l :
  get d "total_interactions" (VNum 0) = VNum i →
  get d "last_login_days" (VNum 30) = VNum l →
  _calculate_engagement_score d = Ok (VNum (engagement_q i l)).
Proof.
  intros Hi Hl.
  unfold _calculate_engagement_score, py_min, engagement_q,
    interaction_points, login_points.
  rewrite Hi, Hl. simpl.
  destruct (Qlt_bool 50 (i * 2)), (Qle_bool l 1), (Qle_bool l 7),
    (Qle_bool l 30); reflexivity.
Qed.

Lemma usage_closed d u :
  get d "feature_usage_score" (VNum 0) = VNum u →
  _calculate_usage_score d = Ok (VNum (usage_q u)).
Proof.
  intros Hu. unfold _calculate_usage_score, py_min, usage_q.
  rewrite Hu. simpl. by destruct (Qlt_bool 100 (u * 20)).
Qed.

Lemma satisfaction_closed d s :
  get d "support_tickets" (VNum 0) = VNum s →
  _calculate_satisfaction_score d = Ok (VNum (satisfaction_q s)).
Proof.
  intros Hs. unfold _calculate_satisfaction_score, satisfaction_q.
  rewrite Hs. simpl.
  destruct (Qeq_bool s 0), (Qle_bool s 2), (Qle_bool s 5); reflexivity.
Qed.

Lemma financial_closed d r t :
  get d "monthly_revenue" (VNum 0) = VNum r →
  get d "tenure_months" (VNum 1) = VNum t →
  _calculate_financial_score d = Ok (VNum (financial_q r t)).
Proof.
  intros Hr Ht. unfold _calculate_financial_score, py_min, financial_q.
  rewrite Hr, Ht. simpl.
  destruct (Qlt_bool 70 (r / 10)), (Qlt_bool 30 (t * 2)); reflexivity.
Qed.

Lemma support_closed d s :
  get d "support_tickets" (VNum 0) = VNum s →
  _calculate_support_score d = Ok (VNum (support_q s)).
Proof.
  intros Hs. unfold _calculate_support_score, support_q.
  rewrite Hs. simpl.
  destruct (Qeq_bool s 0), (Qle_bool s 1), (Qle_bool s 3), (Qle_bool s 5);
    reflexivity.
Qed.

Lemma clamp_closed h :
  (lower_clamped ← py_max (VNum h) (VNum 0);
   py_min lower_clamped (VNum 100)) = Ok (VNum (clamp_q h)).
Proof.
  unfold py_max, py_min, py_gt, py_lt, clamp_q. res_step.
  destruct (Qlt_bool h 0); res_step; [reflexivity|].
  by destruct (Qlt_bool 100 h).
Qed.

(** On numbers the health score is the clamped weighted sum of the
    sub-scores. *)
Lemma health_closed d i l u s r t :
  health_inputs d i l u s r t →
  calculate_health_score d = Ok (VNum (clamp_q (weighted_q i l u s r t))).
Proof.
  intros (Hi & Hl & Hu & Hs & Hr & Ht). unfold calculate_health_score.
  rewrite (engagement_closed d i l Hi Hl), (usage_closed d u Hu),
    (satisfaction_closed d s Hs), (financial_closed d r t Hr Ht),
    (support_closed d s Hs).
  res_step. rewrite weighted_sum_on_numbers. res_step.
  exact (clamp_closed (weighted_q i l u s r t)).
Qed.

Ltac case_Q :=
  repeat match goal with
  | |- context [Qeq_bool ?x ?y] => destruct (Qeq_bool_reflect x y)
  | |- context [Qlt_bool ?x ?y] => destruct (Qlt_bool_reflect x y)
  | |- context [Qle_bool ?x ?y] => destruct (Qle_bool_reflect x y)
  end.

Lemma engagement_bounds i l :
  ((0 <= i)%Q → (0 <= engagement_q i l)%Q) ∧ (engagement_q i l <= 100)%Q.
Proof.
  unfold engagement_q, interaction_points, login_points.
  case_Q; split; intros; lra.
Qed.

Lemma usage_bounds u : ((0 <= u)%Q → (0 <= usage_q u)%Q) ∧ (usage_q u <= 100)%Q.
Proof. unfold usage_q. case_Q; split; intros; lra. Qed.

Lemma satisfaction_bounds s : (40 <= satisfaction_q s <= 100)%Q.
Proof. unfold satisfaction_q. case_Q; lra. Qed.

Lemma financial_bounds r t :
  ((0 <= r)%Q → (0 <= t)%Q → (0 <= financial_q r t)%Q)
  ∧ (financial_q r t <= 100)%Q.
Proof.
  unfold financial_q. change (r / 10)%Q with (r * (1 # 10))%Q.
  case_Q; split; intros; lra.
Qed.

Lemma support_bounds s : (30 <= support_q s <= 100)%Q.
Proof. unfold support_q. case_Q; lra. Qed.

Lemma clamp_cases h :
  ((h < 0)%Q ∧ clamp_q h = 0%Q)
  ∨ ((0 <= h <= 100)%Q ∧ clamp_q h = h)
  ∨ ((100 < h)%Q ∧ clamp_q h = 100%Q).
Proof.
  unfold clamp_q. destruct (Qlt_bool_reflect h 0) as [Hneg|Hneg].
  - left. split; [exact Hneg | reflexivity].
  - destruct (Qlt_bool_reflect 100 h) as [Hbig|Hbig].
    + right. right. split; [exact Hbig | reflexivity].
    + right. left. split; [lra | reflexivity].
Qed.

Lemma clamp_idle h : (0 <= h <= 100)%Q → clamp_q h = h.
Proof.
  intros Hh. destruct (clamp_cases h) as [[? _]|[[_ ->]|[? _]]];
    [lra | reflexivity | lra].
Qed.

Lemma get_nonneg d k q0 :
  valid_profile d → k ∈ feature_columns → (0 <= q0)%Q →
  ∃ q, get d k (VNum q0) = VNum q ∧ (0 <= q)%Q.
Proof.
  unfold valid_profile. rewrite forallb_forall. intros Hd Hk Hq0.
  apply list_elem_of_In in Hk. specialize (Hd k Hk).
  unfold absent_or, get in *. destruct (d !! k) as [[q| |]|]; simpl in *;
    try discriminate.
  - exists q. split; [done|]. by apply Qle_bool_iff.
  - by exists q0.
Qed.

(** X8: the health score of a valid profile.  Where the six fields are
    absent or non-negative numbers within the bound, each sub-score is
    returned and lies within its range (satisfaction from 40, support
    from 30, the others from 0, all up to 100), the clamp changes nothing:
    the score is the weighted sum of the sub-scores as it was computed,
    and it lies between 11 and 100. *)
Theorem health_score_of_valid_profile d :
  valid_profile d →
  bounded_fields d →
  ∃ e u s f p w,
    _calculate_engagement_score d = Ok (VNum e) ∧ (0 <= e <= 100)%Q
    ∧ _calculate_usage_score d = Ok (VNum u) ∧ (0 <= u <= 100)%Q
    ∧ _calculate_satisfaction_score d = Ok (VNum s) ∧ (40 <= s <= 100)%Q
    ∧ _calculate_financial_score d = Ok (VNum f) ∧ (0 <= f <= 100)%Q
    ∧ _calculate_support_score d = Ok (VNum p) ∧ (30 <= p <= 100)%Q
    ∧ weighted_sum (VNum 0)
        [("engagement", VNum e); ("usage", VNum u); ("satisfaction", VNum s);
         ("financial", VNum f); ("support", VNum p)] = Ok (VNum w)
    ∧ calculate_health_score d = Ok (VNum w)
    ∧ (11 <= w <= 100)%Q.
Proof.
  intros Hd _.
  assert (Hin : ∀ k, k ∈ feature_columns ↔
    k = "tenure_months" ∨ k = "monthly_revenue" ∨ k = "total_interactions"
    ∨ k = "support_tickets" ∨ k = "last_login_days"
    ∨ k = "feature_usage_score").
  { intros k. unfold feature_columns. rewrite !elem_of_cons, elem_of_nil.
    tauto. }
  destruct (get_nonneg d "total_interactions" 0 Hd) as (i & Hi & Hi0);
    [apply Hin; tauto | lra |].
  destruct (get_nonneg d "last_login_days" 30 Hd) as (l & Hl & Hl0);
    [apply Hin; tauto | lra |].
  destruct (get_nonneg d "feature_usage_score" 0 Hd) as (u & Hu & Hu0);
    [apply Hin; tauto | lra |].
  destruct (get_nonneg d "support_tickets" 0 Hd) as (s & Hs & Hs0);
    [apply Hin; tauto | lra |].
  destruct (get_nonneg d "monthly_revenue" 0 Hd) as (r & Hr & Hr0);
    [apply Hin; tauto | lra |].
  destruct (get_nonneg d "tenure_months" 1 Hd) as (t & Ht & Ht0);
    [apply Hin; tauto | lra |].
  exists (engagement_q i l), (usage_q u), (satisfaction_q s),
    (financial_q r t), (support_q s), (weighted_q i l u s r t).
  assert (Hinputs : health_inputs d i l u s r t) by done.
  pose proof (engagement_bounds i l) as [He0 He].
  pose proof (usage_bounds u) as [Hu0' Hu'].
  pose proof (satisfaction_bounds s) as Hsat.
  pose proof (financial_bounds r t) as [Hf0 Hf].
  pose proof (support_bounds s) as Hsup.
  specialize (He0 Hi0). specialize (Hu0' Hu0). specialize (Hf0 Hr0 Ht0).
  assert (Hw : (11 <= weighted_q i l u s r t <= 100)%Q)
    by (unfold weighted_q; lra).
  split; [exact (engagement_closed d i l Hi Hl)|]. split; [lra|].
  split; [exact (usage_closed d u Hu)|]. split; [lra|].
  split; [exact (satisfaction_closed d s Hs)|]. split; [lra|].
  split; [exact (financial_closed d r t Hr Ht)|]. split; [lra|].
  split; [exact (support_closed d s Hs)|]. split; [lra|].
  split; [apply weighted_sum_on_numbers|]. split; [|exact Hw].
  rewrite (health_closed d i l u s r t Hinputs).
  rewrite clamp_idle; [reflexivity | lra].
Qed.

Lemma health_score_of_valid_profile_witness :
  ∃ e u s f p w,
    _calculate_engagement_score test_health = Ok (VNum e)
    ∧ (0 <= e <= 100)%Q
    ∧ _calculate_usage_score test_health = Ok (VNum u) ∧ (0 <= u <= 100)%Q
    ∧ _calculate_satisfaction_score test_health = Ok (VNum s)
    ∧ (40 <= s <= 100)%Q
    ∧ _calculate_financial_score test_health = Ok (VNum f)
    ∧ (0 <= f <= 100)%Q
    ∧ _calculate_support_score test_health = Ok (VNum p)
    ∧ (30 <= p <= 100)%Q
    ∧ weighted_sum (VNum 0)
        [("engagement", VNum e); ("usage", VNum u); ("satisfaction", VNum s);
         ("financial", VNum f); ("support", VNum p)] = Ok (VNum w)
    ∧ calculate_health_score test_health = Ok (VNum w)
    ∧ (11 <= w <= 100)%Q.
Proof.
  apply (health_score_of_valid_profile test_health); reflexivity.
Defined.

Lemma clamp_monotone h h' : (h <= h')%Q → (clamp_q h <= clamp_q h')%Q.
Proof.
  intros Hh.
  destruct (clamp_cases h) as [[? ->]|[[? ->]|[? ->]]],
    (clamp_cases h') as [[? ->]|[[? ->]|[? ->]]]; lra.
Qed.

Lemma engagement_monotone i l i' l' :
  (i <= i')%Q → (l' <= l)%Q → (engagement_q i l <= engagement_q i' l')%Q.
Proof.
  intros Hi Hl. unfold engagement_q. apply Qplus_le_compat.
  - unfold interaction_points. case_Q; lra.
  - unfold login_points. case_Q; lra.
Qed.

Lemma usage_monotone u u' : (u <= u')%Q → (usage_q u <= usage_q u')%Q.
Proof. intros Hu. unfold usage_q. case_Q; lra. Qed.

Lemma satisfaction_antitone s s' :
  (0 <= s')%Q → (s' <= s)%Q → (satisfaction_q s <= satisfaction_q s')%Q.
Proof. intros H0 Hs. unfold satisfaction_q. case_Q; lra. Qed.

Lemma support_antitone s s' :
  (0 <= s')%Q → (s' <= s)%Q → (support_q s <= support_q s')%Q.
Proof. intros H0 Hs. unfold support_q. case_Q; lra. Qed.

Lemma financial_monotone r t r' t' :
  (r <= r')%Q → (t <= t')%Q → (financial_q r t <= financial_q r' t')%Q.
Proof.
  intros Hr Ht. unfold financial_q.
  change (r / 10)%Q with (r * (1 # 10))%Q.
  change (r' / 10)%Q with (r' * (1 # 10))%Q.
  apply Qplus_le_compat; case_Q; lra.
Qed.

Lemma health_status_monotone h h' :
  (h <= h')%Q →
  (status_rank (get_health_status h) ≤ status_rank (get_health_status h'))%nat.
Proof.
  intros Hh. unfold get_health_status.
  case_Q; try lra;
    change (status_rank "Excellent") with 3%nat;
    change (status_rank "Good") with 2%nat;
    change (status_rank "Fair") with 1%nat;
    change (status_rank "Poor") with 0%nat; lia.
Qed.

(** X9: the health score is monotone.  On fields within the bound, a
    customer with at least the interactions, the usage, the revenue and
    the tenure of another, with a last login at least as recent and with
    no more support tickets (none negative) never gets the lower score,
    nor the lower status. *)
Theorem health_score_monotone d d' i l u s r t i' l' u' s' r' t' :
  health_inputs d i l u s r t →
  health_inputs d' i' l' u' s' r' t' →
  bounded_fields d → bounded_fields d' →
  (i <= i')%Q → (l' <= l)%Q → (u <= u')%Q →
  (0 <= s')%Q → (s' <= s)%Q → (r <= r')%Q → (t <= t')%Q →
  ∃ h h', calculate_health_score d = Ok (VNum h)
          ∧ calculate_health_score d' = Ok (VNum h')
          ∧ (h <= h')%Q
          ∧ (status_rank (get_health_status h)
             ≤ status_rank (get_health_status h'))%nat.
Proof.
  intros Hd Hd' _ _ Hi Hl Hu Hs0 Hs Hr Ht.
  eexists _, _. split; [exact (health_closed _ _ _ _ _ _ _ Hd)|].
  split; [exact (health_closed _ _ _ _ _ _ _ Hd')|].
  assert (Hle : (clamp_q (weighted_q i l u s r t)
                 <= clamp_q (weighted_q i' l' u' s' r' t'))%Q).
  { apply clamp_monotone. unfold weighted_q.
    pose proof (engagement_monotone i l i' l' Hi Hl).
    pose proof (usage_monotone u u' Hu).
    pose proof (satisfaction_antitone s s' Hs0 Hs).
    pose proof (financial_monotone r t r' t' Hr Ht).
    pose proof (support_antitone s s' Hs0 Hs). lra. }
  split; [exact Hle | by apply health_status_monotone].
Qed.

Lemma health_score_monotone_witness :
  ∃ h h', calculate_health_score test_high_risk = Ok (VNum h)
          ∧ calculate_health_score test_healthy = Ok (VNum h')
          ∧ (h <= h')%Q
          ∧ (status_rank (get_health_status h)
             ≤ status_rank (get_health_status h'))%nat.
Proof.
  apply (health_score_monotone test_high_risk test_healthy
           8 21 1.2 6 45 3 85 1 4.8 1 350 24);
    first [ by repeat split | by vm_compute ].
Defined.

(** X10: many support tickets bar the best status.  With more than 2
    support tickets the satisfaction sub-score is at most 60 and the
    support sub-score at most 70, so the health score is at most 89 and
    the status is never Excellent, whatever the other fields hold within
    the bound. *)
Theorem tickets_bar_excellent d i l u s r t :
  health_inputs d i l u s r t →
  bounded_fields d →
  (2 < s)%Q →
  ∃ h, calculate_health_score d = Ok (VNum h)
       ∧ (h <= 89)%Q ∧ get_health_status h ≠ "Excellent".
Proof.
  intros Hd _ Hs. eexists. split; [exact (health_closed _ _ _ _ _ _ _ Hd)|].
  assert (Hle : (clamp_q (weighted_q i l u s r t) <= 89)%Q).
  { pose proof (engagement_bounds i l) as [_ He].
    pose proof (usage_bounds u) as [_ Hu].
    pose proof (financial_bounds r t) as [_ Hf].
    assert (Hsat : (satisfaction_q s <= 60)%Q)
      by (unfold satisfaction_q; case_Q; lra).
    assert (Hsup : (support_q s <= 70)%Q)
      by (unfold support_q; case_Q; lra).
    assert (Hw : (weighted_q i l u s r t <= 89)%Q)
      by (unfold weighted_q; lra).
    destruct (clamp_cases (weighted_q i l u s r t))
      as [[? ->]|[[? ->]|[? ->]]]; lra. }
  split; [exact Hle|]. unfold get_health_status.
  destruct (Qle_bool_reflect 90 (clamp_q (weighted_q i l u s r t)));
    [lra|]. case_Q; discriminate.
Qed.

Lemma tickets_bar_excellent_witness :
  ∃ h, calculate_health_score (profile 60 900 85 3 1 5) = Ok (VNum h)
       ∧ (h <= 89)%Q ∧ get_health_status h ≠ "Excellent".
Proof.
  apply (tickets_bar_excellent (profile 60 900 85 3 1 5) 85 1 5 3 900 60);
    first [ by repeat split | by vm_compute ].
Defined.

Ltac outcome_by closed E1 E2 :=
  first
    [ right; split;
      [ eexists; apply closed; unfold get; rewrite ?E1, ?E2; reflexivity
      | unfold absent_or; rewrite ?E1, ?E2; repeat split; reflexivity ]
    | left; unfold get; rewrite ?E1, ?E2; reflexivity ].

Lemma engagement_outcome d :
  _calculate_engagement_score d = Raise TypeError
  ∨ (∃ q, _calculate_engagement_score d = Ok (VNum q))
    ∧ absent_or is_number d "total_interactions" = true
    ∧ absent_or is_number d "last_login_days" = true.
Proof.
  destruct (d !! "total_interactions") as [[i|si|]|] eqn:Ei;
  destruct (d !! "last_login_days") as [[l|sl|]|] eqn:El;
  unfold _calculate_engagement_score at 1; outcome_by engagement_closed Ei El.
Qed.

Lemma usage_outcome d :
  _calculate_usage_score d = Raise TypeError
  ∨ (∃ q, _calculate_usage_score d = Ok (VNum q))
    ∧ absent_or is_number d "feature_usage_score" = true.
Proof.
  destruct (d !! "feature_usage_score") as [[u|su|]|] eqn:Eu;
  unfold _calculate_usage_score at 1; outcome_by usage_closed Eu Eu.
Qed.

Lemma satisfaction_outcome d :
  _calculate_satisfaction_score d = Raise TypeError
  ∨ (∃ q, _calculate_satisfaction_score d = Ok (VNum q))
    ∧ absent_or is_number d "support_tickets" = true.
Proof.
  destruct (d !! "support_tickets") as [[s|ss|]|] eqn:Es;
  unfold _calculate_satisfaction_score at 1;
  outcome_by satisfaction_closed Es Es.
Qed.

Lemma financial_outcome d :
  _calculate_financial_score d = Raise TypeError
  ∨ (∃ q, _calculate_financial_score d = Ok (VNum q))
    ∧ absent_or is_number d "monthly_revenue" = true
    ∧ absent_or is_number d "tenure_months" = true.
Proof.
  destruct (d !! "monthly_revenue") as [[r|sr|]|] eqn:Er;
  destruct (d !! "tenure_months") as [[t|st|]|] eqn:Et;
  unfold _calculate_financial_score at 1; outcome_by financial_closed Er Et.
Qed.

Lemma health_raises_on_non_number d :
  ¬ numeric_on feature_columns d →
  calculate_health_score d = Raise TypeError.
Proof.
  intros Hd. unfold calculate_health_score.
  destruct (engagement_outcome d) as [->|[[e ->] [Hi Hl]]]; [done|].
  destruct (usage_outcome d) as [->|[[u ->] Hu]]; [done|].
  destruct (satisfaction_outcome d) as [->|[[s ->] Hs]]; [done|].
  destruct (financial_outcome d) as [->|[[f ->] [Hr Ht]]]; [done|].
  exfalso. apply Hd. unfold numeric_on, feature_columns. simpl.
  by rewrite Hi, Hl, Hu, Hs, Hr, Ht.
Qed.

(** X11: when the health score raises.  On fields within the bound,
    [calculate_health_score] raises exactly when one of the six fields
    holds something that is not a number, and the exception is
    [TypeError]; the route then answers 500.  On numbers, finite ones as
    every number of the embedding is, it returns a number in [0, 100],
    and the route answers 200 with the rounded score and the status of
    the unrounded one. *)
Theorem health_score_raises_iff round d :
  bounded_fields d →
  (¬ numeric_on feature_columns d →
     calculate_health_score d = Raise TypeError
     ∧ api_calculate_health round d = Status500 TypeError)
  ∧ (numeric_on feature_columns d →
     ∃ h, calculate_health_score d = Ok (VNum h) ∧ (0 <= h <= 100)%Q
          ∧ api_calculate_health round d
            = Status200 (HealthBody (VNum (round h 2%Z))
                           (get_health_status h))).
Proof.
  intros _. unfold api_calculate_health. split.
  - intros Hd. by rewrite (health_raises_on_non_number d Hd).
  - intros Hd. destruct (health_score_in_range d Hd) as (h & -> & Hh).
    by exists h.
Qed.

Lemma health_score_raises_iff_witness :
  let d := <["support_tickets" := VStr "many"]> test_health in
  (¬ numeric_on feature_columns d →
     calculate_health_score d = Raise TypeError
     ∧ api_calculate_health round_half_even d = Status500 TypeError)
  ∧ (numeric_on feature_columns d →
     ∃ h, calculate_health_score d = Ok (VNum h) ∧ (0 <= h <= 100)%Q
          ∧ api_calculate_health round_half_even d
            = Status200 (HealthBody (VNum (round_half_even h 2%Z))
                           (get_health_status h))).
Proof.
  intros d. apply (health_score_raises_iff round_half_even d). reflexivity.
Defined.

(** ** The recommender *)

(** X12: how many recommendations a tier gets.  On numbers the engine
    returns; a risk of at most 0.4 gives at most one recommendation and
    a risk of at most 0.7 at most three; the list is empty for a risk of
    at most 0.4 with a revenue of 100 or more, and never empty for a
    revenue below 100. *)
Theorem recommendations_by_tier d risk i l30 l0 u s r :
  recommender_inputs d risk i l30 l0 u s r →
  ∃ recs, get_recommendations d = Ok recs
    ∧ ((risk <= 0.4)%Q → (length recs ≤ 1)%nat)
    ∧ ((risk <= 0.7)%Q → (length recs ≤ 3)%nat)
    ∧ ((risk <= 0.4)%Q → (100 <= r)%Q → recs = [])
    ∧ ((r < 100)%Q → recs ≠ []).
Proof.
  intros Hd. eexists. split; [exact (recommendations_table _ _ _ _ _ _ _ _ Hd)|].
  unfold selected_actions.
  destruct (Qlt_bool_reflect 0.7 risk), (Qlt_bool_reflect 0.4 risk),
    (Qlt_bool_reflect r 100);
    repeat split; intros; try lra;
    destruct (Qlt_bool (engagement_level_q i l30) 50), (Qlt_bool u 3),
      (Qlt_bool 3 s), (Qlt_bool 14 l0);
    first [ reflexivity | vm_compute; lia | vm_compute; discriminate ].
Qed.

Lemma recommendations_by_tier_witness :
  ∃ recs, get_recommendations test_recommendations = Ok recs
    ∧ ((0.65 <= 0.4)%Q → (length recs ≤ 1)%nat)
    ∧ ((0.65 <= 0.7)%Q → (length recs ≤ 3)%nat)
    ∧ ((0.65 <= 0.4)%Q → (100 <= 75)%Q → recs = [])
    ∧ ((75 < 100)%Q → recs ≠ []).
Proof.
  apply (recommendations_by_tier test_recommendations 0.65 15 14 14 2.1 4 75).
  repeat split; reflexivity.
Defined.

Lemma engagement_level_low i l :
  (i <= 2)%Q → Qlt_bool (engagement_level_q i l) 50 = true.
Proof.
  intros Hi. unfold engagement_level_q.
  destruct (Qle_bool l 7), (Qle_bool l 30);
    match goal with
    | |- Qlt_bool ?x 50 = true => destruct (Qlt_bool_reflect x 50)
    end; try lra; reflexivity.
Qed.

Lemma engagement_level_below i l :
  Qlt_bool (engagement_level_q i l) 50 = true → (i < 5)%Q.
Proof.
  unfold engagement_level_q. rewrite Qlt_bool_iff.
  destruct (Qle_bool l 7), (Qle_bool l 30); intros; lra.
Qed.

(** X13: what the truncation drops.  For a revenue below 100 the upgrade
    action is the last of the list, unless the high tier fires all three
    of its branches: then the list is the five high-tier actions and the
    upgrade action, the sixth candidate, is cut.  That happens only at a
    risk above 0.7 with fewer than 5 interactions, a usage below 3 and
    more than 3 tickets, and it does happen there with 2 interactions or
    fewer, whatever the last login. *)
Theorem truncation_drops_upgrade d risk i l30 l0 u s r :
  recommender_inputs d risk i l30 l0 u s r →
  (r < 100)%Q →
  ∃ recs, get_recommendations d = Ok recs
    ∧ (last (action <$> recs) = Some "Discuss upgrade opportunities"
       ∨ (action <$> recs = high_tier_actions
          ∧ ("Discuss upgrade opportunities" ∉ (action <$> recs))
          ∧ (0.7 < risk)%Q ∧ (i < 5)%Q ∧ (u < 3)%Q ∧ (3 < s)%Q))
    ∧ ((0.7 < risk)%Q → (i <= 2)%Q → (u < 3)%Q → (3 < s)%Q →
       action <$> recs = high_tier_actions)
    ∧ ((risk <= 0.7)%Q ∨ (5 <= i)%Q ∨ (3 <= u)%Q ∨ (s <= 3)%Q →
       last (action <$> recs) = Some "Discuss upgrade opportunities").
Proof.
  intros Hd Hr. eexists.
  split; [exact (recommendations_table _ _ _ _ _ _ _ _ Hd)|].
  rewrite prioritize_action. unfold selected_actions.
  destruct (Qlt_bool_reflect r 100); [|lra].
  pose proof (engagement_level_low i l30) as Hlow.
  pose proof (engagement_level_below i l30) as Hbelow.
  destruct (Qlt_bool_reflect 0.7 risk), (Qlt_bool 0.4 risk),
    (Qlt_bool (engagement_level_q i l30) 50), (Qlt_bool_reflect u 3),
    (Qlt_bool_reflect 3 s), (Qlt_bool 14 l0); simpl;
    (split; [|split]);
    first
      [ by left
      | right; split; [reflexivity|];
        split; [apply (bool_decide_unpack _); vm_compute; reflexivity|];
        repeat split; first [assumption | by apply Hbelow]
      | reflexivity
      | intros; first [ reflexivity
                      | lra
                      | by (exfalso; assert (false = true) by auto) ]
      | intros [?|[Hi|[?|?]]]; first [ reflexivity | lra
                      | exfalso; assert (i < 5)%Q by (by apply Hbelow); lra ] ].
Qed.

Lemma truncation_drops_upgrade_witness :
  let d := <["churn_probability" := VNum 0.8]> (profile 0 0 0 6 40 0) in
  ∃ recs, get_recommendations d = Ok recs
    ∧ (last (action <$> recs) = Some "Discuss upgrade opportunities"
       ∨ (action <$> recs = high_tier_actions
          ∧ ("Discuss upgrade opportunities" ∉ (action <$> recs))
          ∧ (0.7 < 0.8)%Q ∧ (0 < 5)%Q ∧ (0 < 3)%Q ∧ (3 < 6)%Q))
    ∧ ((0.7 < 0.8)%Q → (0 <= 2)%Q → (0 < 3)%Q → (3 < 6)%Q →
       action <$> recs = high_tier_actions)
    ∧ ((0.8 <= 0.7)%Q ∨ (5 <= 0)%Q ∨ (3 <= 0)%Q ∨ (6 <= 3)%Q →
       last (action <$> recs) = Some "Discuss upgrade opportunities").
Proof.
  intros d. apply (truncation_drops_upgrade d 0.8 0 40 40 0 6 0).
  - repeat split; reflexivity.
  - reflexivity.
Defined.

(** X14: the actions of priority Low.  On every input, a returned
    recommendation of priority Low, the fifth entry, is either "Priority
    support queue assignment" or "Discuss upgrade opportunities": five
    entries arise only when the high tier fires both of its two-action
    branches. *)
Theorem low_priority_actions d recs rec :
  get_recommendations d = Ok recs →
  rec ∈ recs →
  priority rec = "Low" →
  (action rec = "Priority support queue assignment"
   ∧ category rec = "Support Enhancement")
  ∨ (action rec = "Discuss upgrade opportunities"
     ∧ category rec = "Commercial").
Proof.
  unfold get_recommendations. intros Hrecs Hrec Hlow.
  destruct (candidate_actions d) as [c|] eqn:Hc; [|discriminate].
  injection Hrecs as <-.
  rewrite (fromkeys_NoDup_id c (candidate_actions_NoDup d c Hc)) in Hrec.
  apply candidate_actions_shape in Hc as (b1 & b2 & b3 & b4 & b5 & -> & Hex).
  destruct b4; [destruct Hex as (-> & -> & ->); [done|]|];
    destruct b5; try destruct b1, b2, b3;
    match type of Hrec with _ ∈ ?l => set (L := l) in Hrec end;
    vm_compute in L; subst L;
    repeat match goal with
    | H : _ ∈ [] |- _ => by apply elem_of_nil in H
    | H : _ ∈ _ :: _ |- _ => apply elem_of_cons in H as [->|H]
    end; simpl in Hlow;
    first [ discriminate Hlow
          | left; split; reflexivity
          | right; split; reflexivity ].
Qed.

Lemma low_priority_actions_witness :
  let rec := Recommendation "Priority support queue assignment" "Low"
               "Support Enhancement" in
  (action rec = "Priority support queue assignment"
   ∧ category rec = "Support Enhancement")
  ∨ (action rec = "Discuss upgrade opportunities"
     ∧ category rec = "Commercial").
Proof.
  intros rec.
  eapply (low_priority_actions
            (<["churn_probability" := VNum 0.8]> (profile 0 0 0 6 40 0))).
  - reflexivity.
  - do 4 apply list_elem_of_further. apply list_elem_of_here.
  - reflexivity.
Defined.

(** X15: engaged customers are spared the low-engagement actions.  With
    5 interactions or more the engagement level is at least 50 whatever
    the last login, so neither "Schedule personal check-in call" nor
    "Offer product training session" is recommended, at any risk. *)
Theorem engaged_customers_get_no_outreach d risk i l30 l0 u s r :
  recommender_inputs d risk i l30 l0 u s r →
  (5 <= i)%Q →
  ∃ recs, get_recommendations d = Ok recs
    ∧ ("Schedule personal check-in call" ∉ (action <$> recs))
    ∧ ("Offer product training session" ∉ (action <$> recs)).
Proof.
  intros Hd Hi. eexists.
  split; [exact (recommendations_table _ _ _ _ _ _ _ _ Hd)|].
  rewrite prioritize_action. unfold selected_actions.
  assert (Hlevel : Qlt_bool (engagement_level_q i l30) 50 = false).
  { unfold engagement_level_q.
    destruct (Qle_bool l30 7), (Qle_bool l30 30);
      match goal with
      | |- Qlt_bool ?x 50 = false => destruct (Qlt_bool_reflect x 50)
      end; try lra; reflexivity. }
  rewrite Hlevel, andb_false_r.
  destruct (Qlt_bool 0.7 risk), (Qlt_bool 0.4 risk), (Qlt_bool u 3),
    (Qlt_bool 3 s), (Qlt_bool 14 l0), (Qlt_bool r 100);
    split; apply (bool_decide_unpack _); vm_compute; reflexivity.
Qed.

Lemma engaged_customers_get_no_outreach_witness :
  ∃ recs, get_recommendations test_recommendations = Ok recs
    ∧ ("Schedule personal check-in call" ∉ (action <$> recs))
    ∧ ("Offer product training session" ∉ (action <$> recs)).
Proof.
  apply (engaged_customers_get_no_outreach test_recommendations
           0.65 15 14 14 2.1 4 75).
  - repeat split; reflexivity.
  - by vm_compute.
Defined.

Lemma get_recommendations_insert_other d k v :
  k ∉ recommender_keys →
  get_recommendations (<[k := v]> d) = get_recommendations d.
Proof.
  unfold recommender_keys. rewrite !not_elem_of_cons.
  intros (H1 & H2 & H3 & H4 & H5 & H6 & H7 & _).
  unfold get_recommendations, candidate_actions, _get_engagement_level.
  cbv zeta. rewrite selected_churn_risk_insert_ne by done.
  by rewrite !get_insert_ne by done.
Qed.

(** X16: what the recommender does not read.  The stored [health_score],
    which the source fetches and never uses, the tenure, and every key
    other than the two risks and the five fields of the branches have no
    effect on the recommendations, whatever value they hold. *)
Theorem recommender_ignores_other_keys d k :
  k ∉ recommender_keys →
  (∀ v, get_recommendations (<[k := v]> d) = get_recommendations d)
  ∧ ("health_score" ∉ recommender_keys)
  ∧ ("tenure_months" ∉ recommender_keys).
Proof.
  intros Hk. split; [intros v; by apply get_recommendations_insert_other|].
  unfold recommender_keys. rewrite !not_elem_of_cons.
  repeat split; first [discriminate | apply not_elem_of_nil].
Qed.

Lemma recommender_ignores_other_keys_witness :
  (∀ v, get_recommendations (<["health_score" := v]> test_recommendations)
        = get_recommendations test_recommendations)
  ∧ ("health_score" ∉ recommender_keys)
  ∧ ("tenure_months" ∉ recommender_keys).
Proof.
  apply (recommender_ignores_other_keys test_recommendations "health_score").
  unfold recommender_keys. rewrite !not_elem_of_cons, elem_of_nil.
  repeat split; first [discriminate | tauto].
Defined.

(** ** The routes that combine the three components *)

Lemma absent_or_insert_ne P d k v k' :
  k ≠ k' → absent_or P (<[k := v]> d) k' = absent_or P d k'.
Proof. intros Hne. unfold absent_or. by rewrite lookup_insert_ne. Qed.

Lemma numeric_on_insert_other ks d k v :
  k ∉ ks → numeric_on ks (<[k := v]> d) ↔ numeric_on ks d.
Proof.
  intros Hk. unfold numeric_on. rewrite !forallb_forall.
  split; intros H k' Hk'; specialize (H k' Hk');
    (rewrite absent_or_insert_ne in *; [done|]);
    intros ->; by apply Hk, list_elem_of_In.
Qed.

Lemma health_score_insert_other d k v :
  k ∉ feature_columns →
  calculate_health_score (<[k := v]> d) = calculate_health_score d.
Proof.
  unfold feature_columns. rewrite !not_elem_of_cons.
  intros (H1 & H2 & H3 & H4 & H5 & H6 & _).
  unfold calculate_health_score, _calculate_engagement_score,
    _calculate_usage_score, _calculate_satisfaction_score,
    _calculate_financial_score, _calculate_support_score.
  by rewrite !get_insert_ne by done.
Qed.

Lemma predict_churn_insert_other model d k v :
  k ∉ feature_columns →
  predict_churn model (<[k := v]> d) = predict_churn model d.
Proof.
  unfold feature_columns. rewrite !not_elem_of_cons.
  intros (H1 & H2 & H3 & H4 & H5 & H6 & _).
  unfold predict_churn, prepare_features, _rule_based_churn_prediction.
  by rewrite !get_insert_ne by done.
Qed.

Lemma predict_churn_outcome model d :
  predict_churn model d = Raise TypeError ∨ ∃ p, predict_churn model d = Ok p.
Proof.
  assert (Hrule : _rule_based_churn_prediction d = Raise TypeError
                  ∨ ∃ p, _rule_based_churn_prediction d = Ok p).
  { destruct (numeric_on_dec rule_fields d) as [Hd|Hd].
    - right. destruct (rule_based_in_unit_interval d Hd) as (p & Hp & _).
      by exists p.
    - left. by apply rule_based_raises_on_non_number. }
  unfold predict_churn. destruct model as [inference|]; simpl.
  - destruct (inference (prepare_features d)) as [p|e]; simpl; [eauto|].
    exact Hrule.
  - destruct Hrule as [->|[p ->]]; simpl; eauto.
Qed.

Lemma not_feature_column k :
  k = "churn_probability" ∨ k = "health_score" ∨ k = "churn_risk" →
  k ∉ feature_columns.
Proof.
  unfold feature_columns. rewrite !not_elem_of_cons.
  intros [-> | [-> | ->]]; repeat split;
    first [discriminate | apply not_elem_of_nil].
Qed.

(** On a row whose six features are numbers the loop body returns: the
    recommendations, when the estimate is above 0.5, are those of the row
    with the rounded estimate as its [churn_probability]. *)
Lemma annotate_on_numbers round model d :
  numeric_on feature_columns d →
  ∃ p h recs,
    predict_churn model d = Ok p
    ∧ calculate_health_score d = Ok (VNum h)
    ∧ get_recommendations (<["churn_probability" := VNum (round p 3%Z)]> d)
      = Ok recs
    ∧ annotate_customer round model d
      = Ok (CustomerEntry
              (<["health_score" := VNum (round h 2%Z)]>
                 (<["churn_probability" := VNum (round p 3%Z)]> d))
              (if Qlt_bool 0.5 p then Some recs else None)).
Proof.
  intros Hd.
  assert (Hin : ∀ k, k ∈ feature_columns ↔
    k = "tenure_months" ∨ k = "monthly_revenue" ∨ k = "total_interactions"
    ∨ k = "support_tickets" ∨ k = "last_login_days"
    ∨ k = "feature_usage_score").
  { intros k. unfold feature_columns. rewrite !elem_of_cons, elem_of_nil.
    tauto. }
  destruct (predict_churn_outcome model d) as [Hp|[p Hp]].
  { exfalso.
    assert (Hrule : numeric_on rule_fields d).
    { apply (numeric_on_weaken feature_columns); [|exact Hd].
      unfold rule_fields. intros k. rewrite Hin, !elem_of_cons, elem_of_nil.
      tauto. }
    destruct (rule_based_in_unit_interval d Hrule) as (q & Hq & _).
    revert Hp. unfold predict_churn. destruct model as [inference|]; simpl.
    - destruct (inference _); simpl; [discriminate | by rewrite Hq].
    - by rewrite Hq. }
  destruct (health_score_in_range d Hd) as (h & Hh & _).
  set (d1 := <["churn_probability" := VNum (round p 3%Z)]> d).
  destruct (get_is_num _ d "total_interactions" 0 Hd) as [i Hi];
    [apply Hin; tauto|].
  destruct (get_is_num _ d "last_login_days" 30 Hd) as [l30 Hl30];
    [apply Hin; tauto|].
  destruct (get_is_num _ d "last_login_days" 0 Hd) as [l0 Hl0];
    [apply Hin; tauto|].
  destruct (get_is_num _ d "feature_usage_score" 0 Hd) as [u Hu];
    [apply Hin; tauto|].
  destruct (get_is_num _ d "support_tickets" 0 Hd) as [s Hs];
    [apply Hin; tauto|].
  destruct (get_is_num _ d "monthly_revenue" 0 Hd) as [r Hr];
    [apply Hin; tauto|].
  assert (Hinputs : recommender_inputs d1 (round p 3%Z) i l30 l0 u s r).
  { unfold recommender_inputs, d1.
    rewrite (selected_churn_risk_present _ (VNum (round p 3%Z)))
      by apply lookup_insert_eq.
    by rewrite !get_insert_ne by done. }
  pose proof (recommendations_table _ _ _ _ _ _ _ _ Hinputs) as Hrecs.
  subst d1.
  eexists p, h, _. split; [exact Hp|]. split; [exact Hh|].
  split; [exact Hrecs|].
  unfold annotate_customer. rewrite Hp. res_step.
  rewrite (health_score_insert_other d "churn_probability")
    by (apply not_feature_column; tauto).
  rewrite Hh. res_step. unfold py_round. res_step.
  destruct (Qlt_bool 0.5 p); [|reflexivity].
  rewrite get_recommendations_insert_other.
  - by rewrite Hrecs.
  - unfold recommender_keys. rewrite !not_elem_of_cons.
    repeat split; first [discriminate | apply not_elem_of_nil].
Qed.

Lemma annotate_raises_on_non_number round model d :
  ¬ numeric_on feature_columns d →
  annotate_customer round model d = Raise TypeError.
Proof.
  intros Hd. unfold annotate_customer.
  destruct (predict_churn_outcome model d) as [->|[p ->]]; [done|].
  res_step.
  rewrite (health_score_insert_other d "churn_probability")
    by (apply not_feature_column; tauto).
  by rewrite (health_raises_on_non_number d Hd).
Qed.

Lemma annotate_customers_on_numbers round model rows :
  Forall (numeric_on feature_columns) rows →
  ∃ entries, annotate_customers round model rows = Ok entries
             ∧ length entries = length rows.
Proof.
  induction 1 as [|d rows Hd _ (entries & IH & Hlen)]; simpl.
  - by exists [].
  - destruct (annotate_on_numbers round model d Hd)
      as (p & h & recs & _ & _ & _ & ->).
    res_step. rewrite IH. res_step. eexists. split; [reflexivity|].
    simpl. by rewrite Hlen.
Qed.

Lemma annotate_customers_raises round model rows :
  ¬ Forall (numeric_on feature_columns) rows →
  annotate_customers round model rows = Raise TypeError.
Proof.
  induction rows as [|d rows IH]; intros Hrows; simpl.
  - exfalso. apply Hrows. constructor.
  - destruct (numeric_on_dec feature_columns d) as [Hd|Hd].
    + destruct (annotate_on_numbers round model d Hd)
        as (p & h & recs & _ & _ & _ & ->).
      res_step. rewrite IH; [done|]. intros Hrest. apply Hrows.
      by constructor.
    + by rewrite (annotate_raises_on_non_number round model d Hd).
Qed.

(** X17: one bad row fails the whole customer list.  [GET /api/customers]
    answers 200, with one entry per row, exactly when in every row each
    of the six features is absent or a number, whatever the other
    columns hold and whatever the artifact; a single string or [None]
    among them turns the whole answer into a 500 with a [TypeError]. *)
Theorem customers_route_status round model rows :
  (Forall (numeric_on feature_columns) rows →
     ∃ entries, get_customers round model rows = Status200 entries
                ∧ length entries = length rows)
  ∧ (¬ Forall (numeric_on feature_columns) rows →
     get_customers round model rows = Status500 TypeError).
Proof.
  unfold get_customers. split.
  - intros Hrows.
    destruct (annotate_customers_on_numbers round model rows Hrows)
      as (entries & Hentries & Hlen).
    destruct rows; [by exists []|]. rewrite Hentries. by exists entries.
  - intros Hrows.
    pose proof (annotate_customers_raises round model rows Hrows) as Hraise.
    destruct rows; [discriminate Hraise|]. by rewrite Hraise.
Qed.

(** X18: the customer list selects the tier by the prediction.  On a row
    whose six features are numbers, the loop of [GET /api/customers]
    stores the rounded estimate as [churn_probability] before it asks for
    recommendations, and asks only when the unrounded estimate is above
    0.5: the recommendations are those of the rounded estimate, and the
    [churn_risk] column of the row has no part in them. *)
Theorem customers_route_uses_prediction round model d :
  numeric_on feature_columns d →
  ∃ p entry,
    predict_churn model d = Ok p
    ∧ annotate_customer round model d = Ok entry
    ∧ entry_dict entry !! "churn_probability" = Some (VNum (round p 3%Z))
    ∧ (entry_recommendations entry = None ↔ (p <= 0.5)%Q)
    ∧ (∀ recs, entry_recommendations entry = Some recs →
         get_recommendations
           (<["churn_probability" := VNum (round p 3%Z)]> d) = Ok recs)
    ∧ (∀ v, ∃ entry',
         annotate_customer round model (<["churn_risk" := v]> d) = Ok entry'
         ∧ entry_recommendations entry' = entry_recommendations entry).
Proof.
  intros Hd.
  destruct (annotate_on_numbers round model d Hd)
    as (p & h & recs & Hp & Hh & Hrecs & Hentry).
  eexists p, _. split; [exact Hp|]. split; [exact Hentry|]. simpl.
  split; [by rewrite lookup_insert_ne, lookup_insert_eq|]. split; [|split].
  - destruct (Qlt_bool_reflect 0.5 p); split; intros; try done; lra.
  - destruct (Qlt_bool 0.5 p); [|discriminate]. by intros ? [= <-].
  - intros v.
    assert (Hd' : numeric_on feature_columns (<["churn_risk" := v]> d)).
    { apply numeric_on_insert_other; [|exact Hd].
      apply not_feature_column. tauto. }
    destruct (annotate_on_numbers round model _ Hd')
      as (p' & h' & recs' & Hp' & _ & Hrecs' & Hentry').
    rewrite predict_churn_insert_other in Hp'
      by (apply not_feature_column; tauto).
    assert (p' = p) as -> by congruence.
    eexists. split; [exact Hentry'|]. simpl.
    assert (recs' = recs) as ->; [|reflexivity].
    assert (Hsame : get_recommendations
              (<["churn_probability" := VNum (round p 3%Z)]>
                 (<["churn_risk" := v]> d))
            = get_recommendations
                (<["churn_probability" := VNum (round p 3%Z)]> d)).
    { apply get_recommendations_ext.
      - by rewrite !(selected_churn_risk_present _ (VNum (round p 3%Z)))
          by apply lookup_insert_eq.
      - intros k dflt Hk1 Hk2. by rewrite !get_insert_ne by done. }
    congruence.
Qed.

Lemma customers_route_uses_prediction_witness :
  ∃ p entry,
    predict_churn None test_high_risk = Ok p
    ∧ annotate_customer round_half_even None test_high_risk = Ok entry
    ∧ entry_dict entry !! "churn_probability"
      = Some (VNum (round_half_even p 3%Z))
    ∧ (entry_recommendations entry = None ↔ (p <= 0.5)%Q)
    ∧ (∀ recs, entry_recommendations entry = Some recs →
         get_recommendations
           (<["churn_probability" := VNum (round_half_even p 3%Z)]>
              test_high_risk) = Ok recs)
    ∧ (∀ v, ∃ entry',
         annotate_customer round_half_even None
           (<["churn_risk" := v]> test_high_risk) = Ok entry'
         ∧ entry_recommendations entry' = entry_recommendations entry).
Proof.
  apply (customers_route_uses_prediction round_half_even None test_high_risk).
  reflexivity.
Defined.

Lemma candidate_actions_without_risk d :
  d !! "churn_probability" = None → d !! "churn_risk" = None →
  candidate_actions d = revenue_step d.
Proof.
  intros Hp Hr. unfold candidate_actions, revenue_step.
  rewrite (selected_churn_risk_absent d Hp), pool_low_revenue.
  rewrite (get_absent d "churn_risk" _ Hr). res_step.
  change (py_gt (VNum 0) (VNum 0.7)) with (Ok false).
  change (py_gt (VNum 0) (VNum 0.4)) with (Ok false). res_step.
  destruct (py_lt _ _) as [[|]|]; reflexivity.
Qed.

(** X19: the customer page selects the tier by the stored columns.  The
    predictions of [GET /api/customer/<id>] hand the recommender the row
    as it is, without the estimate: on a row of numbers with neither a
    [churn_probability] nor a [churn_risk] column no tier branch fires,
    whatever the estimate, and the recommendations are the upgrade action
    alone for a revenue below 100 and none otherwise. *)
Theorem customer_page_ignores_prediction round model d :
  numeric_on feature_columns d →
  d !! "churn_probability" = None →
  d !! "churn_risk" = None →
  ∃ x p, get_customer_predictions round model d = Ok x
    ∧ predict_churn model d = Ok p
    ∧ detail_churn_probability x = round p 3%Z
    ∧ get_recommendations d = Ok (detail_recommendations x)
    ∧ (detail_recommendations x = []
       ∨ detail_recommendations x
         = [Recommendation "Discuss upgrade opportunities" "High"
              "Commercial"]).
Proof.
  intros Hd Hp Hr.
  destruct (annotate_on_numbers round model d Hd)
    as (p & h & _ & Hpred & Hh & _ & _).
  destruct (get_is_num _ d "monthly_revenue" 0 Hd) as [r Hrev].
  { unfold feature_columns. rewrite !elem_of_cons. tauto. }
  assert (Hrecs : ∃ recs, get_recommendations d = Ok recs
            ∧ (recs = [] ∨ recs = [Recommendation
                 "Discuss upgrade opportunities" "High" "Commercial"])).
  { unfold get_recommendations.
    rewrite (candidate_actions_without_risk d Hp Hr). unfold revenue_step.
    rewrite Hrev. unfold py_lt. res_step.
    destruct (Qlt_bool r 100); eexists; (split; [reflexivity|]);
      [right | left]; reflexivity. }
  destruct Hrecs as (recs & Hrecs & Hshape).
  unfold get_customer_predictions. rewrite Hpred, Hh, Hrecs. simpl.
  eexists _, p. repeat split; eauto.
Qed.

Lemma customer_page_ignores_prediction_witness :
  ∃ x p, get_customer_predictions round_half_even None test_high_risk = Ok x
    ∧ predict_churn None test_high_risk = Ok p
    ∧ detail_churn_probability x = round_half_even p 3%Z
    ∧ get_recommendations test_high_risk = Ok (detail_recommendations x)
    ∧ (detail_recommendations x = []
       ∨ detail_recommendations x
         = [Recommendation "Discuss upgrade opportunities" "High"
              "Commercial"]).
Proof.
  apply (customer_page_ignores_prediction round_half_even None test_high_risk);
    reflexivity.
Defined.
